(** * Verification of the downloader package (downloader/downloader.go)
      and of the download command (package main, second part of the listing)

    The Go code is embedded shallowly.  Pure functions of the package
    (format selection, output-name computation) are Rocq functions.  Code
    that touches the file system, the network or a subprocess is written
    in a state-and-error monad over a [World]: the regular files, the
    directories, the progress bars on the terminal, the package-level
    variable [ffmpegCheck] and the trace of streams opened and
    subprocesses run.

    What the operating system, the network and the subprocess answer is
    not decided by the program: it is read from an [Env] of oracles, over
    which every theorem quantifies.  Code of the module that the package
    calls but that lives in other files (FormatList, SanitizeFilename,
    pickIdealFileExtension, the progress type, getVideoWithFormat) is
    listed in [Deps] or modelled from the specification, and is marked as
    such where it is defined. *)

From Stdlib Require Import ZArith List String Ascii Bool Lia.
From Stdlib.Strings Require Import Byte.
From stdpp Require Import base option list strings gmap fin_maps.

Open Scope string_scope.
Open Scope list_scope.
Open Scope Z_scope.

(** ** Data model *)

(** youtube.Format: the fields the downloader reads. Go's [int] is a
    64-bit integer; no arithmetic is done on these fields, so [Z] stands
    for it without wrap-around. *)
Record Format := mkFormat {
  ItagNo : Z;
  MimeType : string;
  Quality : string;
  QualityLabel : string;
  AudioChannels : Z;
  Bitrate : Z
}.

(** youtube.FormatList is []Format. *)
Abbreviation FormatList := (list Format).

(** youtube.Video: the fields the downloader reads. *)
Record Video := mkVideo {
  ID : string;
  Title : string;
  Formats : FormatList
}.

(** Go's error values that can flow through the package. *)
Inductive error :=
| Errorf (msg : string)            (* fmt.Errorf(msg) *)
| ExitError (code : Z)             (* *exec.ExitError: the subprocess ran and exited with code <> 0 *)
| ExecError (name : string)        (* *exec.Error: the executable was not found on the search path *)
| ErrShortWrite                    (* io.ErrShortWrite *)
| PathError (op path : string)     (* *os.PathError, *os.LinkError and other system call errors *)
| StreamError (msg : string).      (* errors of the stream client and of reads from the stream *)

(** ** Code of the module that is not in downloader.go *)

(** The pure functions the package calls and whose text is in other
    files.  Every theorem holds for all of them. *)
Record Deps := mkDeps {
  (** the test behind FormatList.Type(t): does a MIME type belong to class t *)
  typeMatch : string -> string -> bool;
  (** the test behind FormatList.Quality(q) *)
  qualityMatch : string -> Format -> bool;
  (** the comparison behind FormatList.Sort() *)
  sortFormat : Format -> Format -> bool;
  (** SanitizeFilename *)
  SanitizeFilename : string -> string;
  (** the subtype-to-extension table of pickIdealFileExtension *)
  canonicals : string -> option string;
  (** the extension pickIdealFileExtension falls back to *)
  defaultExtension : string;
  (** getVideoWithFormat of the command: fetches the catalog of a video id *)
  getVideoWithFormat : string -> error + (Video * Format);
  (** path/filepath.Join, path/filepath.Dir and strconv.Atoi of Go's library *)
  filepath_Join : string -> string -> string;
  filepath_Dir : string -> string;
  strconv_Atoi : string -> option Z
}.

Section FormatSelection.

Variable D : Deps.

(** Modelled from the spec: FormatList.Type is not in downloader.go. The
    spec has it narrow the catalog to a MIME class, returning a new list
    and leaving the catalog intact. *)
Definition FormatList_Type (fl : FormatList) (t : string) : FormatList :=
  List.filter (fun f => typeMatch D t (MimeType f)) fl.

(** Modelled from the spec: FormatList.AudioChannels is not in
    downloader.go. The spec has it keep the formats whose audio-channel
    count is n. *)
Definition FormatList_AudioChannels (fl : FormatList) (n : Z) : FormatList :=
  List.filter (fun f => AudioChannels f =? n) fl.

(** Modelled from the spec: FormatList.Quality is not in downloader.go.
    The spec has it keep the formats that match the quality. *)
Definition FormatList_Quality (fl : FormatList) (quality : string) : FormatList :=
  List.filter (fun f => qualityMatch D quality f) fl.

(** Modelled from the spec: FormatList.Sort is not in downloader.go. The
    spec has it sort by a deterministic order; the model is the stable
    insertion sort for the comparison [sortFormat], which rearranges the
    slice whatever the comparison is. *)
Fixpoint sortInsert (x : Format) (sorted : FormatList) : FormatList :=
  match sorted with
  | [] => [x]
  | y :: rest => if sortFormat D y x then y :: sortInsert x rest else x :: y :: rest
  end.

Definition FormatList_Sort (fl : FormatList) : FormatList :=
  fold_right sortInsert [] fl.

(** Modelled from the spec: FormatList.FindByItag is not in downloader.go.
    The spec has it find the format with exactly this itag; [None] is
    the nil pointer. *)
Fixpoint FormatList_FindByItag (fl : FormatList) (itagNo : Z) : option Format :=
  match fl with
  | [] => None
  | f :: rest => if ItagNo f =? itagNo then Some f else FormatList_FindByItag rest itagNo
  end.

(** getVideoAudioFormats (downloader.go:160-195). The Go function returns
    (videoFormat, audioFormat, err); [inl] is a non-nil err. The two
    pointers are nil until a candidate list is non-empty; Sort works in
    place on slices that the filters have just allocated, so the catalog
    is not touched. *)
Definition getVideoAudioFormats (v : Video) (quality mimetype : string)
  : error + (Format * Format) :=
  let formats := Formats v in
  let formats := if negb (mimetype =? "")%string then FormatList_Type formats mimetype else formats in
  let videoFormats := FormatList_AudioChannels (FormatList_Type formats "video") 0 in
  let audioFormats := FormatList_Type formats "audio" in
  let videoFormats := if negb (quality =? "")%string then FormatList_Quality videoFormats quality else videoFormats in
  let videoFormat := if (0 <? Z.of_nat (length videoFormats)) then head (FormatList_Sort videoFormats) else None in
  let audioFormat := if (0 <? Z.of_nat (length audioFormats)) then head (FormatList_Sort audioFormats) else None in
  match videoFormat with
  | None => inl (Errorf "no video format found after filtering")
  | Some vf =>
    match audioFormat with
    | None => inl (Errorf "no audio format found after filtering")
    | Some af => inr (vf, af)
    end
  end.

(** getFormatByItag (downloader.go:197-206). *)
Definition getFormatByItag (v : Video) (itag : Z) : error + Format :=
  let formats := Formats v in
  match FormatList_FindByItag formats itag with
  | None => inl (Errorf "no audio format found")
  | Some r => inr r
  end.

(** Modelled from the spec: pickIdealFileExtension is not in
    downloader.go. The spec has it look the MIME type up in a fixed
    table and fall back to a documented extension. *)
Definition pickIdealFileExtension (mediaType : string) : string :=
  match canonicals D mediaType with
  | Some extension => extension
  | None => defaultExtension D
  end.

End FormatSelection.

(** ** The world the package acts on *)

(** The decorators of the mpb progress-bar library that the package
    uses, with the options it passes. *)
Inductive WC := WCSyncSpace.
Inductive TimeStyle := ET_STYLE_GO.
Inductive SizeUnit := UnitKiB.

Inductive Decorator :=
| CountersKibiByte (pairFmt : string)
| Percentage (wcc : WC)
| EwmaETA (style : TimeStyle) (age : Z)
| Name (str : string)
| EwmaSpeed (unit : SizeUnit) (fmt : string) (age : Z).

(** A bar of an mpb progress container, as the terminal shows it. *)
Record Bar := mkBar {
  bar_width : Z;
  bar_total : Z;
  bar_current : Z;
  bar_prepend : list Decorator;
  bar_append : list Decorator
}.

(** What leaves the process: a stream opened on the network, a subprocess
    run (with what Run returned). *)
Inductive Event :=
| EvOpenStream (videoID : string) (itag : Z)
| EvExec (argv : list string) (result : option error).

Record World := mkWorld {
  files : gmap string (list byte);   (* regular files: path to content *)
  dirs : gmap string Z;              (* directories: path to permission bits *)
  display : list Bar;                (* progress bars, the newest first *)
  ffmpegCheck : option error;        (* package-level variable of the command *)
  trace : list Event                 (* oldest event first *)
}.

Definition set_files (f : gmap string (list byte) -> gmap string (list byte)) (w : World) : World :=
  mkWorld (f (files w)) (dirs w) (display w) (ffmpegCheck w) (trace w).
Definition set_dirs (f : gmap string Z -> gmap string Z) (w : World) : World :=
  mkWorld (files w) (f (dirs w)) (display w) (ffmpegCheck w) (trace w).
Definition set_display (f : list Bar -> list Bar) (w : World) : World :=
  mkWorld (files w) (dirs w) (f (display w)) (ffmpegCheck w) (trace w).
Definition set_ffmpegCheck (e : option error) (w : World) : World :=
  mkWorld (files w) (dirs w) (display w) e (trace w).
Definition log_event (ev : Event) (w : World) : World :=
  mkWorld (files w) (dirs w) (display w) (ffmpegCheck w) (trace w ++ [ev]).

(** A stream as the sequence of results of its Read calls: the buffers
    it delivers, then io.EOF ([None]) or an error. *)
Record Stream := mkStream {
  chunks : list (list byte);
  readErr : option error
}.

(** The answers of the operating system, the network and subprocesses.
    A fault leaves the world as it was. *)
Record Env := mkEnv {
  (** os.MkdirAll fails *)
  mkdirFault : World -> string -> option error;
  (** the directories above a path, which os.MkdirAll creates with it *)
  ancestors : string -> list string;
  (** os.Create fails *)
  createFault : World -> string -> option error;
  (** os.CreateTemp: the error, or the name it picked for the pattern *)
  tempFile : World -> string -> string -> error + string;
  (** os.File.Write fails after having written n bytes of the buffer *)
  writeFault : World -> string -> list byte -> option (nat * error);
  (** youtube.Client.GetStreamContext: the error, or the stream and
      its declared length *)
  GetStreamContext : World -> Video -> Format -> error + (Stream * Z);
  (** exec.Cmd.Run: what Run returns, and the files the subprocess wrote *)
  runProc : World -> list string -> option error * list (string * list byte);
  (** os.Remove fails *)
  removeFault : World -> string -> option error;
  (** mpb.Bar.IncrBy: the count the bar holds after n more bytes were
      reported to it; what the bar does at its total is the library's
      business *)
  barCurrent : Bar -> nat -> Z
}.

(** Downloader (downloader.go:17-20); the embedded client is [Env]'s
    GetStreamContext. *)
Record Downloader := mkDownloader {
  OutputDir : string
}.

(** Modelled from the spec: the progress type is not in downloader.go.
    The spec has its Write add the length of each buffer to a byte
    counter and accept the whole buffer. The Go fields are float64,
    exact for counts below 2^53; the model keeps integers. *)
Record progress := mkProgress {
  contentLength : Z;
  totalWrittenBytes : Z
}.

(** ** A state and error monad *)

Definition M (A : Type) : Type := World -> (error + A) * World.

Definition ret {A} (a : A) : M A := fun w => (inr a, w).
Definition throw {A} (e : error) : M A := fun w => (inl e, w).
Definition bind {A B} (c : M A) (k : A -> M B) : M B :=
  fun w => match c w with
           | (inl e, w1) => (inl e, w1)
           | (inr a, w1) => k a w1
           end.

(** Go's [defer f(); rest]: rest runs, then f, whose result is dropped;
    the function returns what rest returned. *)
Definition defer {A B} (f : M B) (rest : M A) : M A :=
  fun w => match rest w with
           | (r, w1) => (r, snd (f w1))
           end.

Notation "x <- c ;; k" := (bind c (fun x => k))
  (at level 100, c at next level, right associativity).
Notation "c ;;; k" := (bind c (fun _ => k))
  (at level 100, right associativity).

Section Downloader.

Variable D : Deps.
Variable E : Env.

(** *** The primitives of Go's library, on the world *)

(** os.MkdirAll(path, perm): the path and the directories above it that
    are absent are created with perm; what exists is left as it is. *)
Definition mkdirOne (perm : Z) (ds : gmap string Z) (p : string) : gmap string Z :=
  match ds !! p with
  | Some _ => ds
  | None => <[p := perm]> ds
  end.

Definition os_MkdirAll (path : string) (perm : Z) : M unit :=
  fun w => match mkdirFault E w path with
           | Some e => (inl e, w)
           | None => (inr tt, set_dirs (fun ds => fold_left (mkdirOne perm) (ancestors E path ++ [path]) ds) w)
           end.

(** os.Create(name): the file is created, or truncated when it exists.
    The *os.File is identified with its name. *)
Definition os_Create (name : string) : M string :=
  fun w => match createFault E w name with
           | Some e => (inl e, w)
           | None => (inr name, set_files (fun fs => <[name := []]> fs) w)
           end.

(** os.CreateTemp(dir, pattern). *)
Definition os_CreateTemp (dir pattern : string) : M string :=
  fun w => match tempFile E w dir pattern with
           | inl e => (inl e, w)
           | inr name => (inr name, set_files (fun fs => <[name := []]> fs) w)
           end.

(** os.Remove(name): the name is unlinked, or the call fails and the
    file stays. *)
Definition os_Remove (name : string) : M unit :=
  fun w => match removeFault E w name with
           | Some e => (inl e, w)
           | None => (inr tt, set_files (fun fs => delete name fs) w)
           end.

(** os.File.Close: file descriptors are not part of the world. *)
Definition file_Close (name : string) : M unit := ret tt.

(** exec.Cmd.Run for exec.Command(argv...). *)
Definition exec_Run (argv : list string) : World -> option error * World :=
  fun w => let '(res, written) := runProc E w argv in
           (res, log_event (EvExec argv res)
                   (set_files (fun fs => fold_left (fun m kv => <[fst kv := snd kv]> m) written fs) w)).

(** *** Writers and the copy loop *)

(** The state of a copy: the world and the progress value. *)
Definition CopyState : Type := World * progress.

(** io.Writer: Write(p) returns (n, err). *)
Definition Writer : Type := list byte -> CopyState -> (nat * option error) * CopyState.

(** os.File.Write on a file that is written from its start: the bytes
    are appended. *)
Definition file_Write (out : string) : Writer :=
  fun p st =>
    let '(w, prog) := st in
    match writeFault E w out p with
    | None => ((length p, None), (set_files (alter (fun c => c ++ p) out) w, prog))
    | Some (n, e) => ((Nat.min n (length p), Some e),
                      (set_files (alter (fun c => c ++ take n p) out) w, prog))
    end.

(** Modelled from the spec: progress.Write is not in downloader.go. *)
Definition progress_Write : Writer :=
  fun p st =>
    let '(w, prog) := st in
    ((length p, None),
     (w, mkProgress (contentLength prog) (totalWrittenBytes prog + Z.of_nat (length p)))).

(** io.MultiWriter(writers...): each writer in turn gets the buffer; the
    first error or short write stops the loop. *)
Fixpoint MultiWriter (writers : list Writer) : Writer :=
  fun p st =>
    match writers with
    | [] => ((length p, None), st)
    | w :: rest =>
      let '((n, err), st1) := w p st in
      match err with
      | Some e => ((n, Some e), st1)
      | None => if Nat.eqb n (length p) then MultiWriter rest p st1
                else ((n, Some ErrShortWrite), st1)
      end
    end.

(** mpb.Bar.IncrBy(n) on the newest bar: the library decides the new
    count. *)
Definition bar_IncrBy (n : nat) (w : World) : World :=
  set_display (fun bars => match bars with
                           | [] => []
                           | b :: rest => mkBar (bar_width b) (bar_total b) (barCurrent E b n)
                                                (bar_prepend b) (bar_append b) :: rest
                           end) w.

(** io.Copy(dst, bar.ProxyReader(stream)): the generic loop of io.Copy
    (neither side has WriterTo or ReaderFrom). Each Read of the proxy
    reader hands on the buffer of the stream and reports its length to
    the bar. A Read that delivers no byte writes nothing. [written] is the
    first result of io.Copy; a writer that reports more bytes than it
    was given counts for 0 and fails. *)
Fixpoint io_Copy (dst : Writer) (bufs : list (list byte)) (eof : option error)
                 (written : Z) (st : CopyState) : (Z * option error) * CopyState :=
  match bufs with
  | [] => ((written, eof), st)
  | buf :: rest =>
    let st := (bar_IncrBy (length buf) (fst st), snd st) in
    if Nat.ltb 0 (length buf) then
      let '((nw, ew), st1) := dst buf st in
      let '(nw, ew) := if Nat.ltb (length buf) nw
                       then (0%nat, match ew with Some e => Some e | None => Some (Errorf "invalid write result") end)
                       else (nw, ew) in
      let written := written + Z.of_nat nw in
      match ew with
      | Some e => ((written, Some e), st1)
      | None => if Nat.eqb (length buf) nw then io_Copy dst rest eof written st1
                else ((written, Some ErrShortWrite), st1)
      end
    else io_Copy dst rest eof written st
  end.

(** mpb.New(mpb.WithWidth(64)) and AddBar (downloader.go:219-232): the
    bar is put on the display. *)
Definition AddBar (total : Z) (prepend append : list Decorator) : M unit :=
  fun w => (inr tt, set_display (fun bars => mkBar 64 total 0 prepend append :: bars) w).

(** mpb.Progress.Wait: returns when the bars are complete. *)
Definition progress_Wait : M unit := ret tt.

(** lines 234-236 of videoDLWorker. *)
Definition copyStream (out : string) (prog : progress) (stream : Stream) (w : World)
  : (Z * option error) * CopyState :=
  let mw := MultiWriter [file_Write out; progress_Write] in
  io_Copy mw (chunks stream) (readErr stream) 0 (w, prog).

(** videoDLWorker (downloader.go:208-243). The context is not a value of
    the model: a cancellation shows as the error that GetStreamContext
    or a Read of the stream returns. float64(size) is exact for sizes
    below 2^53, and the model keeps the integer. *)
Definition videoDLWorker (dl : Downloader) (out : string) (video : Video) (format : Format) : M unit :=
  sres <- (fun w => (GetStreamContext E w video format,
                     log_event (EvOpenStream (ID video) (ItagNo format)) w)) ;;
  let '(stream, size) := sres in
  let prog := mkProgress size 0 in
  AddBar (contentLength prog)
         [CountersKibiByte "% .2f / % .2f"; Percentage WCSyncSpace]
         [EwmaETA ET_STYLE_GO 90; Name " ] "; EwmaSpeed UnitKiB "% .2f" 60] ;;;
  (fun w => match copyStream out prog stream w with
            | ((_, Some err), st) => (inl err, fst st)
            | ((_, None), st) => (inr tt, fst st)
            end) ;;;
  progress_Wait.

(** *** The exported functions *)

(** getOutputFile (downloader.go:22-36). *)
Definition getOutputFile (dl : Downloader) (v : Video) (format : Format) (outputFile : string) : M string :=
  let outputFile := if (outputFile =? "")%string
                    then (SanitizeFilename D (Title v) ++ pickIdealFileExtension D (MimeType format))%string
                    else outputFile in
  if negb (OutputDir dl =? "")%string then
    os_MkdirAll (OutputDir dl) 0x1ED (* 0o755 *) ;;;
    ret (filepath_Join D (OutputDir dl) outputFile)
  else ret outputFile.

(** Download (downloader.go:39-59). The log lines are left out. *)
Definition Download (dl : Downloader) (v : Video) (format : Format) (outputFile : string) : M unit :=
  destFile <- getOutputFile dl v format outputFile ;;
  (* Create output file *)
  out <- os_Create destFile ;;
  defer (file_Close out)
    (videoDLWorker dl out v format).

(** exec.Cmd.Run as the error a function returns. *)
Definition cmd_Run (argv : list string) : M unit :=
  fun w => match exec_Run argv w with
           | (Some e, w1) => (inl e, w1)
           | (None, w1) => (inr tt, w1)
           end.

(** The command line of the muxer (downloader.go:110-117). *)
Definition ffmpegArgs (videoFile audioFile destFile : string) : list string :=
  ["ffmpeg"; "-y";
   "-i"; videoFile;
   "-i"; audioFile;
   "-c"; "copy";      (* Just copy without re-encoding *)
   "-shortest";       (* Finish encoding when the shortest input stream ends *)
   destFile;
   "-loglevel"; "warning"].

(** DownloadComposite (downloader.go:62-123). *)
Definition DownloadComposite (dl : Downloader) (outputFile : string) (v : Video)
                             (quality mimetype : string) : M unit :=
  match getVideoAudioFormats D v quality mimetype with
  | inl err1 => throw err1
  | inr (videoFormat, audioFormat) =>
    destFile <- getOutputFile dl v videoFormat outputFile ;;
    let outputDir := filepath_Dir D destFile in
    (* Create temporary video file *)
    videoFile <- os_CreateTemp outputDir "youtube_*.m4v" ;;
    defer (os_Remove videoFile) (
      (* Create temporary audio file *)
      audioFile <- os_CreateTemp outputDir "youtube_*.m4a" ;;
      defer (os_Remove audioFile) (
        videoDLWorker dl videoFile v videoFormat ;;;
        videoDLWorker dl audioFile v audioFormat ;;;
        cmd_Run (ffmpegArgs videoFile audioFile destFile)))
  end.

(** DownloadByItag (downloader.go:126-158). *)
Definition DownloadByItag (dl : Downloader) (outputFile : string) (v : Video) (itag : Z) : M unit :=
  match getFormatByItag v itag with
  | inl err1 => throw err1
  | inr format =>
    destFile <- getOutputFile dl v format outputFile ;;
    (* Create output file *)
    outFile <- os_Create destFile ;;
    defer (file_Close outFile) (
      videoDLWorker dl outFile v format ;;;
      ret tt)
  end.

End Downloader.

(** ** The download command (package main) *)

Module Cmd.

(** The package-level variables that the flags set. [outputQuality] and
    [mimetype] are declared with their flags in another file of the
    command, and so is [downloader]. *)
Record Flags := mkFlags {
  outputFile : string;
  outputDir : string;
  itagString : string;
  outputQuality : string;
  mimetype : string;
  downloader : Downloader
}.

Section Command.

Variable D : Deps.
Variable E : Env.
Variable F : Flags.

(** checkFFMPEG (lines 311-318 of the listing). A failed probe is
    stored in the package-level [ffmpegCheck], which is what is returned. *)
Definition checkFFMPEG : M unit :=
  fun w => let '(res, w1) := exec_Run E ["ffmpeg"; "-version"] w in
           let w2 := match res with
                     | Some _ => set_ffmpegCheck (Some (Errorf "please check ffmpegCheck is installed correctly")) w1
                     | None => w1
                     end in
           match ffmpegCheck w2 with
           | Some e => (inl e, w2)
           | None => (inr tt, w2)
           end.

(** download (lines 285-309 of the listing). The log line is left out. *)
Definition download (id : string) : M unit :=
  match getVideoWithFormat D id with
  | inl err => throw err
  | inr (video, format) =>
    if negb (itagString F =? "")%string then
      match strconv_Atoi D (itagString F) with
      | None => throw (Errorf ("Invalid Itag number " ++ itagString F)%string)
      | Some itagNo => DownloadByItag D E (downloader F) (outputFile F) video itagNo
      end
    else if String.prefix "hd" (outputQuality F) then
      checkFFMPEG ;;;
      DownloadComposite D E (downloader F) (outputFile F) video (outputQuality F) (mimetype F)
    else
      Download D E (downloader F) video format (outputFile F)
  end.

End Command.

End Cmd.

(** ** The properties in the words of the specification *)

(** A format of the catalog is a video candidate: it passes the optional
    MIME narrowing, is of the video class, has no audio channel and
    passes the optional quality filter. *)
Definition videoCandidate (D : Deps) (quality mimetype : string) (f : Format) : bool :=
  ((mimetype =? "")%string || typeMatch D mimetype (MimeType f))
  && typeMatch D "video" (MimeType f)
  && (AudioChannels f =? 0)
  && ((quality =? "")%string || qualityMatch D quality f).

(** A format of the catalog is an audio candidate: it passes the optional
    MIME narrowing and is of the audio class. *)
Definition audioCandidate (D : Deps) (mimetype : string) (f : Format) : bool :=
  ((mimetype =? "")%string || typeMatch D mimetype (MimeType f))
  && typeMatch D "audio" (MimeType f).

(** The error of a failed lookup tells which itag was looked up: no two
    itags fail with the same error. *)
Definition errorIdentifiesItag (v : Video) : Prop :=
  forall (id1 id2 : Z) (e : error),
    getFormatByItag v id1 = inl e -> getFormatByItag v id2 = inl e -> id1 = id2.



(** ** Concrete instances, on which the definitions are run *)

Module Demo.

(** strings.Contains(s, substr) *)
Fixpoint strings_Contains (s substr : string) : bool :=
  String.prefix substr s ||
  match s with
  | EmptyString => false
  | String _ rest => strings_Contains rest substr
  end.

(** The directory part of a slash-separated path. *)
Fixpoint beforeLastSlash (p : string) : option string :=
  match p with
  | EmptyString => None
  | String c rest =>
    match beforeLastSlash rest with
    | Some d => Some (String c d)
    | None => if Ascii.eqb c "/" then Some EmptyString else None
    end
  end.

Definition Dir (p : string) : string :=
  match beforeLastSlash p with
  | None => "."
  | Some EmptyString => "/"
  | Some d => d
  end.

(** Decimal numerals without sign. *)
Fixpoint digits (s : string) (acc : Z) : option Z :=
  match s with
  | EmptyString => Some acc
  | String c rest =>
    let n := Z.of_nat (nat_of_ascii c) in
    if (48 <=? n) && (n <=? 57) then digits rest (10 * acc + (n - 48)) else None
  end.

Definition Atoi (s : string) : option Z :=
  match s with
  | EmptyString => None
  | _ => digits s 0
  end.

Definition f18 : Format := mkFormat 18 "video/mp4; codecs=avc1.42001E, mp4a.40.2" "medium" "360p" 2 500000.
Definition f22 : Format := mkFormat 22 "video/mp4; codecs=avc1.64001F, mp4a.40.2" "hd720" "720p" 2 1500000.
Definition f137 : Format := mkFormat 137 "video/mp4; codecs=avc1.640028" "hd1080" "1080p" 0 4000000.
Definition f248 : Format := mkFormat 248 "video/webm; codecs=vp9" "hd1080" "1080p" 0 2600000.
Definition f140 : Format := mkFormat 140 "audio/mp4; codecs=mp4a.40.2" "tiny" "" 2 130000.
Definition f251 : Format := mkFormat 251 "audio/webm; codecs=opus" "tiny" "" 2 160000.

(** The catalog of the specification's lookup example: itags 18, 22, 140. *)
Definition video_18_22_140 : Video := mkVideo "vid0" "Test Video" [f18; f22; f140].

(** A catalog with split streams. *)
Definition video_split : Video := mkVideo "vid1" "Test Video" [f18; f248; f137; f140; f251].

(** A catalog with audio formats and no video format without audio. *)
Definition video_muxed : Video := mkVideo "vid2" "Test Video" [f18; f22; f140].

Definition deps : Deps :=
  mkDeps
    (fun t m => strings_Contains m t)
    (fun q f => (Quality f =? q)%string || (QualityLabel f =? q)%string)
    (fun a b => Bitrate b <? Bitrate a)
    (fun title => title)
    (fun m => if String.prefix "video/mp4" m then Some ".mp4"
              else if String.prefix "audio/mp4" m then Some ".m4a"
              else None)
    ".mov"
    (fun id => inr (video_split, f18))
    (fun d n => (d ++ "/" ++ n)%string)
    Dir
    Atoi.

(** A bar that counts up to its total and stops there. *)
Definition barStopsAtTotal (b : Bar) (n : nat) : Z :=
  Z.min (bar_total b) (bar_current b + Z.of_nat n).

(** An environment without faults, for a stream answer and a subprocess
    answer. Temporary files get the names youtube_1.m4v and youtube_2.m4a. *)
Definition env (stream : Format -> error + (Stream * Z))
               (proc : list string -> option error * list (string * list byte)) : Env :=
  mkEnv
    (fun _ _ => None)
    (fun _ => [])
    (fun _ _ => None)
    (fun _ dir pattern => inr (if (pattern =? "youtube_*.m4v")%string
                               then (dir ++ "/youtube_1.m4v")%string
                               else (dir ++ "/youtube_2.m4a")%string))
    (fun _ _ _ => None)
    (fun _ _ f => stream f)
    (fun _ argv => proc argv)
    (fun _ _ => None)
    barStopsAtTotal.

Definition bytes3 : list byte := [x01; x02; x03].
Definition bytes2 : list byte := [x04; x05].

(** Every stream delivers five bytes in two buffers. *)
Definition streamOk (f : Format) : error + (Stream * Z) :=
  inr (mkStream [bytes3; bytes2] None, 5).


(** No stream can be opened. *)
Definition streamRefused (f : Format) : error + (Stream * Z) :=
  inl (StreamError "cannot open the stream").

(** The stream of the audio format breaks after three bytes. *)
Definition streamAudioBreaks (f : Format) : error + (Stream * Z) :=
  if ItagNo f =? 140 then inr (mkStream [bytes3] (Some (StreamError "connection reset")), 5)
  else streamOk f.

(** ffmpeg is installed and writes its output file (the tenth argument). *)
Definition ffmpegOk (argv : list string) : option error * list (string * list byte) :=
  match nth_error argv 9 with
  | Some dest => (None, [(dest, [x00])])
  | None => (None, [])
  end.

(** ffmpeg is not on the search path. *)
Definition ffmpegAbsent (argv : list string) : option error * list (string * list byte) :=
  (Some (ExecError "ffmpeg"), []).

(** ffmpeg answers the probe and fails the merge with exit code 1. *)
Definition ffmpegMergeFails (argv : list string) : option error * list (string * list byte) :=
  match argv with
  | [_; "-version"] => (None, [])
  | _ => (Some (ExitError 1), [])
  end.

Definition world0 : World := mkWorld ∅ ∅ [] None [].

Definition dl0 : Downloader := mkDownloader "".
Definition dlOut : Downloader := mkDownloader "out".


(** An environment in which the temporary video file can be created and
    the temporary audio file cannot. *)
Definition envAudioTempFails : Env :=
  mkEnv
    (fun _ _ => None)
    (fun _ => [])
    (fun _ _ => None)
    (fun _ dir pattern => if (pattern =? "youtube_*.m4v")%string
                          then inr (dir ++ "/youtube_1.m4v")%string
                          else inl (PathError "open" dir))
    (fun _ _ _ => None)
    (fun _ _ f => streamOk f)
    (fun _ argv => ffmpegOk argv)
    (fun _ _ => None)
    barStopsAtTotal.

(** An environment in which the destination cannot be created. *)
Definition envCreateFails : Env :=
  mkEnv
    (fun _ _ => None)
    (fun _ => [])
    (fun _ name => Some (PathError "open" name))
    (fun _ dir pattern => inl (PathError "open" dir))
    (fun _ _ _ => None)
    (fun _ _ f => streamOk f)
    (fun _ argv => ffmpegOk argv)
    (fun _ _ => None)
    barStopsAtTotal.

(** The flags of a run with an itag and a quality that begins with hd. *)
Definition flagsItag : Cmd.Flags := Cmd.mkFlags "" "." "22" "hd1080" "" dl0.

(** A world in which a file of the name of the destination exists. *)
Definition worldOld : World :=
  set_files (fun fs => <["Test Video.mp4" := [x09; x09; x09; x09; x09; x09; x09]]> fs) world0.


(** As [envAudioTempFails], with os.Remove refused as well. *)
Definition envAudioTempFailsRemoveRefused : Env :=
  mkEnv
    (fun _ _ => None)
    (fun _ => [])
    (fun _ _ => None)
    (fun _ dir pattern => if (pattern =? "youtube_*.m4v")%string
                          then inr (dir ++ "/youtube_1.m4v")%string
                          else inl (PathError "open" dir))
    (fun _ _ _ => None)
    (fun _ _ f => streamOk f)
    (fun _ argv => ffmpegOk argv)
    (fun _ name => Some (PathError "remove" name))
    barStopsAtTotal.

End Demo.

(** * Theorems *)

(** ** Format selection *)

Section FormatSelectionFacts.

Variable D : Deps.

Lemma sortInsert_Permutation (x : Format) (l : FormatList) :
  Permutation (sortInsert D x l) (x :: l).
Proof.
  induction l as [|y l IH]; simpl.
  - reflexivity.
  - destruct (sortFormat D y x).
    + rewrite IH. apply perm_swap.
    + reflexivity.
Qed.

Lemma FormatList_Sort_Permutation (l : FormatList) :
  Permutation (FormatList_Sort D l) l.
Proof.
  induction l as [|x l IH]; simpl.
  - reflexivity.
  - rewrite sortInsert_Permutation. now rewrite IH.
Qed.

Lemma FormatList_Sort_In (l : FormatList) (x : Format) :
  In x (FormatList_Sort D l) <-> In x l.
Proof.
  split; apply Permutation_in;
    [ | symmetry ]; apply FormatList_Sort_Permutation.
Qed.

(** The first format after sorting a non-empty list exists and is one of
    the list. *)
Lemma head_Sort (l : FormatList) (y : Format) :
  In y l -> exists x, head (FormatList_Sort D l) = Some x /\ In x l.
Proof.
  intros Hy. apply FormatList_Sort_In in Hy.
  destruct (FormatList_Sort D l) as [|x s] eqn:Hs.
  - destruct Hy.
  - exists x. split; [reflexivity|].
    apply FormatList_Sort_In. rewrite Hs. now left.
Qed.

Lemma length_pos_In (l : FormatList) (y : Format) :
  In y l -> (0 <? Z.of_nat (length l)) = true.
Proof.
  destruct l; simpl; [tauto|]. intros _. apply Z.ltb_lt. lia.
Qed.

(** The video candidates that getVideoAudioFormats computes are the
    formats of the catalog for which [videoCandidate] holds. *)
Lemma videoFormats_In (v : Video) (quality mimetype : string) (f : Format) :
  let formats := if negb (mimetype =? "")%string
                 then FormatList_Type D (Formats v) mimetype else Formats v in
  let videoFormats := FormatList_AudioChannels (FormatList_Type D formats "video") 0 in
  In f (if negb (quality =? "")%string
        then FormatList_Quality D videoFormats quality else videoFormats)
  <-> In f (Formats v) /\ videoCandidate D quality mimetype f = true.
Proof.
  unfold videoCandidate, FormatList_Quality, FormatList_AudioChannels, FormatList_Type.
  destruct (quality =? "")%string, (mimetype =? "")%string; simpl;
    rewrite ?filter_In, ?andb_true_iff, ?andb_true_r; tauto.
Qed.

(** Likewise for the audio candidates. *)
Lemma audioFormats_In (v : Video) (mimetype : string) (f : Format) :
  let formats := if negb (mimetype =? "")%string
                 then FormatList_Type D (Formats v) mimetype else Formats v in
  In f (FormatList_Type D formats "audio")
  <-> In f (Formats v) /\ audioCandidate D mimetype f = true.
Proof.
  unfold audioCandidate, FormatList_Type.
  destruct (mimetype =? "")%string; simpl;
    rewrite ?filter_In, ?andb_true_iff; tauto.
Qed.

Lemma videoCandidate_props (quality mimetype : string) (f : Format) :
  videoCandidate D quality mimetype f = true ->
  typeMatch D "video" (MimeType f) = true /\ AudioChannels f = 0.
Proof.
  unfold videoCandidate. rewrite !andb_true_iff, Z.eqb_eq. tauto.
Qed.

Lemma audioCandidate_props (mimetype : string) (f : Format) :
  audioCandidate D mimetype f = true -> typeMatch D "audio" (MimeType f) = true.
Proof.
  unfold audioCandidate. rewrite !andb_true_iff. tauto.
Qed.

End FormatSelectionFacts.

(** C1. When the catalog holds a video candidate (video class, no audio
    channel, passing the optional MIME narrowing and quality filter) and
    an audio candidate (audio class, passing the MIME narrowing),
    getVideoAudioFormats returns a pair without error: a video-class
    format with audio-channel count 0 and an audio-class format, both
    elements of the catalog. *)
Theorem getVideoAudioFormats_returns_pair :
  forall (D : Deps) (v : Video) (quality mimetype : string) (f a : Format),
    In f (Formats v) -> videoCandidate D quality mimetype f = true ->
    In a (Formats v) -> audioCandidate D mimetype a = true ->
    exists videoFormat audioFormat,
      getVideoAudioFormats D v quality mimetype = inr (videoFormat, audioFormat)
      /\ typeMatch D "video" (MimeType videoFormat) = true
      /\ AudioChannels videoFormat = 0
      /\ typeMatch D "audio" (MimeType audioFormat) = true
      /\ In videoFormat (Formats v)
      /\ In audioFormat (Formats v).
Proof.
  intros D v quality mimetype f a Hf Hfc Ha Hac.
  pose proof (proj2 (videoFormats_In D v quality mimetype f) (conj Hf Hfc)) as Hv.
  pose proof (proj2 (audioFormats_In D v mimetype a) (conj Ha Hac)) as Hau.
  cbv zeta in Hv, Hau.
  destruct (head_Sort D _ _ Hv) as (vf & Hvf & Hvin).
  destruct (head_Sort D _ _ Hau) as (af & Haf & Hain).
  exists vf, af.
  unfold getVideoAudioFormats. cbv zeta.
  rewrite (length_pos_In _ _ Hv), (length_pos_In _ _ Hau), Hvf, Haf.
  apply (videoFormats_In D v quality mimetype vf) in Hvin as [Hvin Hvc].
  apply (audioFormats_In D v mimetype af) in Hain as [Hain Hac'].
  apply videoCandidate_props in Hvc as [Hvt Hvch].
  apply audioCandidate_props in Hac'.
  repeat split; assumption.
Qed.

Lemma getVideoAudioFormats_returns_pair_witness :
  exists videoFormat audioFormat,
    getVideoAudioFormats Demo.deps Demo.video_split "hd1080" "mp4" = inr (videoFormat, audioFormat)
    /\ typeMatch Demo.deps "video" (MimeType videoFormat) = true
    /\ AudioChannels videoFormat = 0
    /\ typeMatch Demo.deps "audio" (MimeType audioFormat) = true
    /\ In videoFormat (Formats Demo.video_split)
    /\ In audioFormat (Formats Demo.video_split).
Proof.
  apply (getVideoAudioFormats_returns_pair Demo.deps Demo.video_split "hd1080" "mp4"
           Demo.f137 Demo.f140).
  - simpl. tauto.
  - reflexivity.
  - simpl. tauto.
  - reflexivity.
Defined.

(** C2. When no format of the catalog is a video candidate,
    getVideoAudioFormats fails with the video-not-found error, whatever
    the audio candidates are: with audio candidates present, and with
    none (the video check comes first). *)
Theorem getVideoAudioFormats_no_video :
  forall (D : Deps) (v : Video) (quality mimetype : string),
    (forall f, In f (Formats v) -> videoCandidate D quality mimetype f = false) ->
    getVideoAudioFormats D v quality mimetype
    = inl (Errorf "no video format found after filtering").
Proof.
  intros D v quality mimetype Hnone.
  unfold getVideoAudioFormats. cbv zeta.
  match goal with
  | |- context [length ?l] => destruct l as [|x l'] eqn:Hl
  end.
  - reflexivity.
  - exfalso.
    assert (Hx : In x (x :: l')) by now left.
    rewrite <- Hl in Hx.
    apply (videoFormats_In D v quality mimetype x) in Hx as [Hin Hc].
    rewrite (Hnone x Hin) in Hc. discriminate.
Qed.

Lemma getVideoAudioFormats_no_video_witness :
  getVideoAudioFormats Demo.deps Demo.video_muxed "" ""
  = inl (Errorf "no video format found after filtering")
  /\ audioCandidate Demo.deps "" Demo.f140 = true.
Proof.
  split.
  - apply (getVideoAudioFormats_no_video Demo.deps Demo.video_muxed "" "").
    intros f Hf. simpl in Hf.
    destruct Hf as [<-|[<-|[<-|[]]]]; reflexivity.
  - reflexivity.
Defined.

(** With no candidate of either class, the error is the video error. *)
Example getVideoAudioFormats_both_empty :
  getVideoAudioFormats Demo.deps (mkVideo "vid3" "Empty" []) "" ""
  = inl (Errorf "no video format found after filtering").
Proof. reflexivity. Qed.

(** Without video candidates excluded, an empty audio class gives the
    audio error. *)
Example getVideoAudioFormats_no_audio :
  getVideoAudioFormats Demo.deps (mkVideo "vid4" "Silent" [Demo.f137]) "" ""
  = inl (Errorf "no audio format found after filtering").
Proof. reflexivity. Qed.

(** ** Lookup by itag *)

Lemma FindByItag_Some (l : FormatList) (id : Z) (r : Format) :
  FormatList_FindByItag l id = Some r -> ItagNo r = id /\ In r l.
Proof.
  induction l as [|f l IH]; simpl; [discriminate|].
  destruct (ItagNo f =? id) eqn:Hid.
  - intros [= <-]. apply Z.eqb_eq in Hid. auto.
  - intros H. destruct (IH H). auto.
Qed.

Lemma FindByItag_None (l : FormatList) (id : Z) :
  FormatList_FindByItag l id = None <-> (forall f, In f l -> ItagNo f <> id).
Proof.
  induction l as [|f l IH]; simpl.
  - split; [intros _ f []|reflexivity].
  - destruct (ItagNo f =? id) eqn:Hid.
    + apply Z.eqb_eq in Hid. split; [discriminate|].
      intros H. exfalso. apply (H f); auto.
    + apply Z.eqb_neq in Hid. rewrite IH. split.
      * intros H g [<-|Hg]; auto.
      * intros H g Hg. apply H. auto.
Qed.

(** C7, as the code has it. When a format of the catalog has the itag,
    getFormatByItag returns a format of the catalog with exactly that
    itag; when none has it, getFormatByItag fails, and the error is one
    fixed value, the same for every catalog and every itag. *)
Theorem getFormatByItag_exact_match :
  exists notFound : error,
  forall (v : Video) (id : Z),
    ((exists f, In f (Formats v) /\ ItagNo f = id) ->
       exists r, getFormatByItag v id = inr r /\ ItagNo r = id /\ In r (Formats v))
    /\ ((forall f, In f (Formats v) -> ItagNo f <> id) ->
       getFormatByItag v id = inl notFound).
Proof.
  exists (Errorf "no audio format found").
  intros v id. unfold getFormatByItag. cbv zeta.
  destruct (FormatList_FindByItag (Formats v) id) as [r|] eqn:Hfind; split.
  - intros _. exists r. apply FindByItag_Some in Hfind. tauto.
  - intros Hno. apply FindByItag_Some in Hfind as [Hid Hin].
    destruct (Hno r Hin Hid).
  - intros (f & Hin & Hid). exfalso.
    exact (proj1 (FindByItag_None _ _) Hfind f Hin Hid).
  - intros _. reflexivity.
Qed.

Lemma getFormatByItag_exact_match_witness :
  exists notFound : error,
    (exists r, getFormatByItag Demo.video_18_22_140 22 = inr r
               /\ ItagNo r = 22 /\ In r (Formats Demo.video_18_22_140))
    /\ getFormatByItag Demo.video_18_22_140 99 = inl notFound.
Proof.
  destruct getFormatByItag_exact_match as [notFound H].
  exists notFound. split.
  - apply (proj1 (H Demo.video_18_22_140 22)).
    exists Demo.f22. simpl. tauto.
  - apply (proj2 (H Demo.video_18_22_140 99)).
    intros f Hf. simpl in Hf.
    destruct Hf as [<-|[<-|[<-|[]]]]; discriminate.
Defined.

(** The lookup example of the specification, run on the code. *)
Example getFormatByItag_22 :
  getFormatByItag Demo.video_18_22_140 22 = inr Demo.f22.
Proof. reflexivity. Qed.

Example getFormatByItag_99 :
  getFormatByItag Demo.video_18_22_140 99 = inl (Errorf "no audio format found").
Proof. reflexivity. Qed.

(** C7 as stated does not hold: on the catalog with itags 18, 22 and 140
    the lookups of 99 and of 98 fail with the same error, so the error
    does not tell which itag is missing. *)
Lemma getFormatByItag_error_without_itag :
  ~ errorIdentifiesItag Demo.video_18_22_140.
Proof.
  intros H.
  specialize (H 99 98 (Errorf "no audio format found") eq_refl eq_refl).
  discriminate.
Qed.

(** ** The copy loop *)

Section CopyFacts.

Variable E : Env.
Variable out : string.

(** The writer that videoDLWorker builds. *)
Let mw : Writer := MultiWriter [file_Write E out; progress_Write].

(** One Write of the multi-writer: the file gets the buffer, then the
    progress value counts it; a failed file write stops before the
    progress value. *)
Lemma MultiWriter_tee (p : list byte) (w : World) (prog : progress) :
  mw p (w, prog) =
  match writeFault E w out p with
  | None => ((length p, None),
             (set_files (alter (fun c => c ++ p) out) w,
              mkProgress (contentLength prog) (totalWrittenBytes prog + Z.of_nat (length p))))
  | Some (n, e) => ((Nat.min n (length p), Some e),
                    (set_files (alter (fun c => c ++ take n p) out) w, prog))
  end.
Proof.
  unfold mw. simpl.
  destruct (writeFault E w out p) as [[n e]|]; simpl.
  - reflexivity.
  - rewrite !Nat.eqb_refl. reflexivity.
Qed.

(** One turn of the loop of io.Copy with this writer. *)
Lemma io_Copy_step (buf : list byte) (rest : list (list byte)) (eof : option error)
      (written : Z) (w : World) (prog : progress) :
  io_Copy E mw (buf :: rest) eof written (w, prog) =
  let w1 := bar_IncrBy E (length buf) w in
  if Nat.ltb 0 (length buf) then
    match writeFault E w1 out buf with
    | None =>
      io_Copy E mw rest eof (written + Z.of_nat (length buf))
              (set_files (alter (fun c => c ++ buf) out) w1,
               mkProgress (contentLength prog) (totalWrittenBytes prog + Z.of_nat (length buf)))
    | Some (n, e) =>
      ((written + Z.of_nat (Nat.min n (length buf)), Some e),
       (set_files (alter (fun c => c ++ take n buf) out) w1, prog))
    end
  else io_Copy E mw rest eof written (w1, prog).
Proof.
  cbn [io_Copy fst snd]. cbv zeta.
  destruct (Nat.ltb 0 (length buf)); [|reflexivity].
  rewrite MultiWriter_tee.
  destruct (writeFault E (bar_IncrBy E (length buf) w) out buf) as [[n e]|].
  - assert (Hlt : Nat.ltb (length buf) (Nat.min n (length buf)) = false)
      by (apply Nat.ltb_ge; lia).
    rewrite Hlt. reflexivity.
  - rewrite Nat.ltb_irrefl, Nat.eqb_refl. reflexivity.
Qed.


(** The loop touches nothing but the content of the file it writes and
    the count of the newest bar. *)
Lemma io_Copy_frame (bufs : list (list byte)) :
  forall (eof : option error) (written : Z) (w : World) (prog : progress)
         (r : Z * option error) (w' : World) (prog' : progress),
    io_Copy E mw bufs eof written (w, prog) = (r, (w', prog')) ->
    trace w' = trace w /\ dirs w' = dirs w /\ ffmpegCheck w' = ffmpegCheck w
    /\ (forall p, p <> out -> files w' !! p = files w !! p)
    /\ (is_Some (files w' !! out) <-> is_Some (files w !! out)).
Proof.
  induction bufs as [|buf rest IH]; intros eof written w prog r w' prog' Hrun.
  - simpl in Hrun. injection Hrun as <- <- <-. tauto.
  - rewrite io_Copy_step in Hrun. cbv zeta in Hrun.
    destruct (Nat.ltb 0 (length buf)).
    + destruct (writeFault E (bar_IncrBy E (length buf) w) out buf) as [[n e]|].
      * injection Hrun as <- <- <-. simpl.
        repeat split; auto.
        -- intros p Hp. now rewrite lookup_alter_ne.
        -- rewrite lookup_alter_eq, fmap_is_Some. tauto.
        -- rewrite lookup_alter_eq, fmap_is_Some. tauto.
      * apply IH in Hrun as (Ht & Hd & Hf & Hother & Hout). simpl in *.
        repeat split; auto.
        -- intros p Hp. rewrite (Hother p Hp). now rewrite lookup_alter_ne.
        -- rewrite Hout, lookup_alter_eq, fmap_is_Some. tauto.
        -- rewrite Hout, lookup_alter_eq, fmap_is_Some. tauto.
    + apply IH in Hrun. simpl in Hrun. exact Hrun.
Qed.


End CopyFacts.

(** ** The download worker *)

Section WorkerFacts.

Variable D : Deps.
Variable E : Env.

(** videoDLWorker, step by step. *)
Lemma videoDLWorker_eq (dl : Downloader) (out : string) (v : Video) (f : Format) (w : World) :
  videoDLWorker E dl out v f w =
  let w1 := log_event (EvOpenStream (ID v) (ItagNo f)) w in
  match GetStreamContext E w v f with
  | inl e => (inl e, w1)
  | inr (stream, size) =>
    let w2 := set_display
                (fun bars => mkBar 64 size 0
                               [CountersKibiByte "% .2f / % .2f"; Percentage WCSyncSpace]
                               [EwmaETA ET_STYLE_GO 90; Name " ] "; EwmaSpeed UnitKiB "% .2f" 60] :: bars) w1 in
    match copyStream E out (mkProgress size 0) stream w2 with
    | ((_, Some err), st) => (inl err, fst st)
    | ((_, None), st) => (inr tt, fst st)
    end
  end.
Proof.
  unfold videoDLWorker, bind, AddBar, progress_Wait, ret. cbv zeta.
  destruct (GetStreamContext E w v f) as [e|[stream size]]; [reflexivity|].
  cbn [contentLength].
  destruct (copyStream E out (mkProgress size 0) stream _) as [[n [err|]] st]; reflexivity.
Qed.

(** A run of the worker opens one stream, and changes nothing in the
    file system but the content of the file it writes. *)
Lemma videoDLWorker_frame (dl : Downloader) (out : string) (v : Video) (f : Format)
      (w : World) (r : error + unit) (w' : World) :
  videoDLWorker E dl out v f w = (r, w') ->
  trace w' = trace w ++ [EvOpenStream (ID v) (ItagNo f)]
  /\ dirs w' = dirs w /\ ffmpegCheck w' = ffmpegCheck w
  /\ (forall p, p <> out -> files w' !! p = files w !! p)
  /\ (is_Some (files w' !! out) <-> is_Some (files w !! out)).
Proof.
  rewrite videoDLWorker_eq. cbv zeta.
  destruct (GetStreamContext E w v f) as [e|[stream size]].
  - intros [= <- <-]. simpl. tauto.
  - unfold copyStream.
    match goal with
    | |- context [io_Copy ?E0 ?m ?b ?e ?n ?s] =>
        destruct (io_Copy E0 m b e n s) as [[n' err] [w1 prog1]] eqn:Hcopy
    end.
    apply io_Copy_frame in Hcopy. simpl in Hcopy.
    destruct err; intros [= <- <-]; simpl; exact Hcopy.
Qed.

(** When the stream cannot be opened, the worker returns that error and
    leaves the files as they are. *)
Lemma videoDLWorker_open_fails (dl : Downloader) (out : string) (v : Video) (f : Format)
      (w : World) (e : error) :
  GetStreamContext E w v f = inl e ->
  videoDLWorker E dl out v f w = (inl e, log_event (EvOpenStream (ID v) (ItagNo f)) w).
Proof.
  intros H. rewrite videoDLWorker_eq. cbv zeta. rewrite H. reflexivity.
Qed.


End WorkerFacts.



(** ** The output path *)

Section OutputFileFacts.

Variable D : Deps.
Variable E : Env.

(** os.MkdirAll leaves the directories that exist as they are, creates
    the listed ones that are absent with the permission bits, and
    creates nothing else. *)
Lemma mkdirAll_lookup (perm : Z) (l : list string) :
  forall (ds : gmap string Z) (p : string),
    fold_left (mkdirOne perm) l ds !! p =
    match ds !! p with
    | Some m => Some m
    | None => if in_dec String.string_dec p l then Some perm else None
    end.
Proof.
  induction l as [|q l IH]; intros ds p; cbn [fold_left].
  - destruct (ds !! p); reflexivity.
  - rewrite IH. unfold mkdirOne.
    destruct (decide (q = p)) as [->|Hne].
    + destruct (ds !! p) eqn:Hp.
      * rewrite Hp. reflexivity.
      * rewrite lookup_insert_eq.
        destruct (in_dec String.string_dec p (p :: l)) as [_|Hn]; [reflexivity|].
        exfalso. apply Hn. now left.
    + assert (Hq : (match ds !! q with Some _ => ds | None => <[q:=perm]> ds end) !! p = ds !! p).
      { destruct (ds !! q); [reflexivity|]. now rewrite lookup_insert_ne. }
      rewrite Hq. destruct (ds !! p); [reflexivity|].
      destruct (in_dec String.string_dec p l) as [Hi|Hi],
               (in_dec String.string_dec p (q :: l)) as [Hj|Hj]; try reflexivity; exfalso.
      * apply Hj. now right.
      * destruct Hj as [Hj|Hj]; [congruence|tauto].
Qed.

(** getOutputFile touches only the directories. *)
Lemma getOutputFile_frame (dl : Downloader) (v : Video) (format : Format) (outputFile : string)
      (w : World) (r : error + string) (w' : World) :
  getOutputFile D E dl v format outputFile w = (r, w') ->
  files w' = files w /\ trace w' = trace w /\ display w' = display w
  /\ ffmpegCheck w' = ffmpegCheck w.
Proof.
  unfold getOutputFile, bind, os_MkdirAll, ret.
  destruct (negb (OutputDir dl =? "")%string).
  - destruct (mkdirFault E w (OutputDir dl)); intros [= <- <-]; simpl; tauto.
  - intros [= <- <-]. tauto.
Qed.

End OutputFileFacts.

(** C8. When the explicit name is empty, the name is the sanitized title
    followed by the extension picked for the MIME type of the format,
    which is the fallback extension when the table has no entry for it.
    When the output directory is not set, the name is the result and
    nothing is created. When it is set and MkdirAll does not fail, the
    result is the name joined under the directory; the directory and
    the directories above it that were absent now exist with permission
    bits 0o755, those that existed keep their bits, and no other
    directory appears. *)
Theorem getOutputFile_resolves :
  forall (D : Deps) (E : Env) (dl : Downloader) (v : Video) (format : Format)
         (outputFile : string) (w : World),
    let name := if (outputFile =? "")%string
                then (SanitizeFilename D (Title v) ++ pickIdealFileExtension D (MimeType format))%string
                else outputFile in
    (outputFile = "" ->
       name = (SanitizeFilename D (Title v) ++ pickIdealFileExtension D (MimeType format))%string)
    /\ (canonicals D (MimeType format) = None ->
       pickIdealFileExtension D (MimeType format) = defaultExtension D)
    /\ (OutputDir dl = "" ->
       getOutputFile D E dl v format outputFile w = (inr name, w))
    /\ (OutputDir dl <> "" -> mkdirFault E w (OutputDir dl) = None ->
       exists w',
         getOutputFile D E dl v format outputFile w
         = (inr (filepath_Join D (OutputDir dl) name), w')
         /\ files w' = files w
         /\ (forall p, In p (ancestors E (OutputDir dl) ++ [OutputDir dl]) ->
               dirs w' !! p = match dirs w !! p with
                              | Some m => Some m
                              | None => Some 0x1ED (* 0o755 *)
                              end)
         /\ (forall p, ~ In p (ancestors E (OutputDir dl) ++ [OutputDir dl]) ->
               dirs w' !! p = dirs w !! p)).
Proof.
  intros D E dl v format outputFile w name.
  split; [|split; [|split]].
  - intros ->. reflexivity.
  - intros Hnone. unfold pickIdealFileExtension. now rewrite Hnone.
  - intros Hdir. unfold getOutputFile. rewrite Hdir. reflexivity.
  - intros Hdir Hok.
    apply String.eqb_neq in Hdir.
    unfold getOutputFile. rewrite Hdir. cbn [negb].
    unfold bind, os_MkdirAll, ret. rewrite Hok.
    eexists. split; [reflexivity|]. split; [reflexivity|].
    cbn [dirs set_dirs]. split; intros p Hp; rewrite mkdirAll_lookup;
      destruct (dirs w !! p); try reflexivity;
      destruct (in_dec String.string_dec p (ancestors E (OutputDir dl) ++ [OutputDir dl]));
      tauto || reflexivity.
Qed.

Lemma getOutputFile_resolves_witness :
  exists w',
    getOutputFile Demo.deps (Demo.env Demo.streamOk Demo.ffmpegOk) Demo.dlOut
                  Demo.video_split Demo.f18 "" Demo.world0
    = (inr "out/Test Video.mp4", w')
    /\ dirs w' !! "out" = Some 0x1ED.
Proof.
  destruct (getOutputFile_resolves Demo.deps (Demo.env Demo.streamOk Demo.ffmpegOk) Demo.dlOut
              Demo.video_split Demo.f18 "" Demo.world0) as (_ & _ & _ & H).
  destruct H as (w' & Hrun & _ & Hnew & _).
  - discriminate.
  - reflexivity.
  - exists w'. split; [exact Hrun|].
    rewrite (Hnew "out"); [reflexivity|]. simpl. tauto.
Defined.

(** The end-to-end example of the specification: without explicit name
    and output directory, the destination is the title with the
    extension of video/mp4. *)
Example getOutputFile_Test_Video :
  fst (getOutputFile Demo.deps (Demo.env Demo.streamOk Demo.ffmpegOk) Demo.dl0
                     Demo.video_split Demo.f18 "" Demo.world0)
  = inr "Test Video.mp4".
Proof. reflexivity. Qed.

(** ** Single-stream downloads *)

Lemma os_Create_inv (E : Env) (name out : string) (w w' : World) :
  os_Create E name w = (inr out, w') ->
  out = name /\ w' = set_files (fun fs => <[name := []]> fs) w.
Proof.
  unfold os_Create. destruct (createFault E w name); intros [= <- <-]; auto.
Qed.

Lemma os_CreateTemp_inv (E : Env) (dir pattern name : string) (w w' : World) :
  os_CreateTemp E dir pattern w = (inr name, w') ->
  w' = set_files (fun fs => <[name := []]> fs) w.
Proof.
  unfold os_CreateTemp. destruct (tempFile E w dir pattern); intros [= <- <-]; auto.
Qed.

(** C10. In Download and in DownloadByItag the destination file is
    created, or truncated, before the stream is opened. When path
    resolution and file creation succeed and the stream cannot be
    opened, the call returns the error of the stream and the destination
    is left on disk, empty; and whatever the call returns after the
    creation, the destination is still on disk. *)
Theorem Download_keeps_destination :
  forall (D : Deps) (E : Env) (dl : Downloader) (v : Video) (format : Format)
         (outputFile : string) (w : World) (destFile : string) (w1 : World)
         (out : string) (w2 : World),
    getOutputFile D E dl v format outputFile w = (inr destFile, w1) ->
    os_Create E destFile w1 = (inr out, w2) ->
    files w2 !! destFile = Some []
    /\ (forall e, GetStreamContext E w2 v format = inl e ->
          let run := Download D E dl v format outputFile w in
          fst run = inl e
          /\ files (snd run) !! destFile = Some []
          /\ trace (snd run) = trace w ++ [EvOpenStream (ID v) (ItagNo format)])
    /\ is_Some (files (snd (Download D E dl v format outputFile w)) !! destFile)
    /\ (forall itag, getFormatByItag v itag = inr format ->
          (forall e, GetStreamContext E w2 v format = inl e ->
             let run := DownloadByItag D E dl outputFile v itag w in
             fst run = inl e
             /\ files (snd run) !! destFile = Some []
             /\ trace (snd run) = trace w ++ [EvOpenStream (ID v) (ItagNo format)])
          /\ is_Some (files (snd (DownloadByItag D E dl outputFile v itag w)) !! destFile)).
Proof.
  intros D E dl v format outputFile w destFile w1 out w2 Hpath Hcreate.
  destruct (getOutputFile_frame D E _ _ _ _ _ _ _ Hpath) as (_ & Htr & _).
  destruct (os_Create_inv _ _ _ _ _ Hcreate) as [-> Hw2].
  assert (Hempty : files w2 !! destFile = Some []).
  { rewrite Hw2. simpl. apply lookup_insert_eq. }
  assert (Htr2 : trace w2 = trace w) by (rewrite Hw2; exact Htr).
  assert (HD : Download D E dl v format outputFile w
               = (fst (videoDLWorker E dl destFile v format w2),
                  snd (videoDLWorker E dl destFile v format w2))).
  { unfold Download, bind, defer, file_Close, ret. rewrite Hpath, Hcreate.
    destruct (videoDLWorker E dl destFile v format w2). reflexivity. }
  assert (HI : forall itag, getFormatByItag v itag = inr format ->
               DownloadByItag D E dl outputFile v itag w
               = (fst (videoDLWorker E dl destFile v format w2),
                  snd (videoDLWorker E dl destFile v format w2))).
  { intros itag Hitag.
    unfold DownloadByItag, bind, defer, file_Close, ret. rewrite Hitag, Hpath, Hcreate.
    destruct (videoDLWorker E dl destFile v format w2) as [[e|[]] w3]; reflexivity. }
  assert (Hfail : forall e, GetStreamContext E w2 v format = inl e ->
            fst (videoDLWorker E dl destFile v format w2) = inl e
            /\ files (snd (videoDLWorker E dl destFile v format w2)) !! destFile = Some []
            /\ trace (snd (videoDLWorker E dl destFile v format w2))
               = trace w ++ [EvOpenStream (ID v) (ItagNo format)]).
  { intros e He. rewrite (videoDLWorker_open_fails E dl destFile v format w2 e He).
    simpl. rewrite Htr2. auto. }
  assert (Hkept : is_Some (files (snd (videoDLWorker E dl destFile v format w2)) !! destFile)).
  { destruct (videoDLWorker E dl destFile v format w2) as [r w3] eqn:Hrun.
    apply videoDLWorker_frame in Hrun as (_ & _ & _ & _ & Hout).
    simpl. apply Hout. rewrite Hempty. eauto. }
  split; [exact Hempty|]. split; [|split].
  - intros e He. cbv zeta. rewrite HD. simpl. auto.
  - rewrite HD. exact Hkept.
  - intros itag Hitag. rewrite (HI itag Hitag). simpl. auto.
Qed.

Lemma Download_keeps_destination_witness :
  let E := Demo.env Demo.streamRefused Demo.ffmpegOk in
  let run := Download Demo.deps E Demo.dlOut Demo.video_split Demo.f18 "" Demo.world0 in
  let runByItag := DownloadByItag Demo.deps E Demo.dlOut "" Demo.video_split 18 Demo.world0 in
  (fst run = inl (StreamError "cannot open the stream")
   /\ files (snd run) !! "out/Test Video.mp4" = Some []
   /\ trace (snd run) = trace Demo.world0 ++ [EvOpenStream "vid1" 18])
  /\ (fst runByItag = inl (StreamError "cannot open the stream")
      /\ files (snd runByItag) !! "out/Test Video.mp4" = Some []
      /\ trace (snd runByItag) = trace Demo.world0 ++ [EvOpenStream "vid1" 18]).
Proof.
  intros E run runByItag.
  destruct (Download_keeps_destination Demo.deps E Demo.dlOut Demo.video_split Demo.f18 ""
              Demo.world0 _ _ _ _ eq_refl eq_refl) as (_ & Hd & _ & Hi).
  split.
  - apply (Hd (StreamError "cannot open the stream")). reflexivity.
  - apply (proj1 (Hi 18 eq_refl) (StreamError "cannot open the stream")). reflexivity.
Defined.

(** ** Removal *)

Section RemoveFacts.

Variable E : Env.

(** os.Remove leaves the trace and every other name as they are; when
    it is not refused the name is gone, when it is refused nothing
    changes; and a name that is gone stays gone. *)
Lemma os_Remove_trace (name : string) (w : World) :
  trace (snd (os_Remove E name w)) = trace w.
Proof. unfold os_Remove. destruct (removeFault E w name); reflexivity. Qed.

Lemma os_Remove_other (name p : string) (w : World) :
  p <> name -> files (snd (os_Remove E name w)) !! p = files w !! p.
Proof.
  intros Hp. unfold os_Remove. destruct (removeFault E w name); cbn [snd files set_files].
  - reflexivity.
  - now rewrite lookup_delete_ne by auto.
Qed.

Lemma os_Remove_ok (name : string) (w : World) :
  removeFault E w name = None -> files (snd (os_Remove E name w)) !! name = None.
Proof.
  intros H. unfold os_Remove. rewrite H. cbn [snd files set_files]. apply lookup_delete_eq.
Qed.

Lemma os_Remove_refused (name : string) (w : World) (e : error) :
  removeFault E w name = Some e -> snd (os_Remove E name w) = w.
Proof. intros H. unfold os_Remove. now rewrite H. Qed.


End RemoveFacts.

(** ** The composite download *)

Section CompositeFacts.

Variable D : Deps.
Variable E : Env.

Lemma cmd_Run_inv (argv : list string) (w : World) (r : error + unit) (w' : World) :
  cmd_Run E argv w = (r, w') ->
  exists res : option error,
    r = match res with Some e => inl e | None => inr tt end
    /\ trace w' = trace w ++ [EvExec argv res].
Proof.
  unfold cmd_Run, exec_Run. destruct (runProc E w argv) as [[e|] written];
    intros [= <- <-]; [exists (Some e)|exists None]; split; reflexivity.
Qed.

(** Once the formats are selected, the path is resolved and both
    temporary files exist, DownloadComposite returns what the three
    steps return (video, audio, merge), after calling os.Remove on the
    audio file and then on the video file. *)
Lemma DownloadComposite_eq (dl : Downloader) (outputFile : string) (v : Video)
      (quality mimetype : string) (w : World)
      (vf af : Format) (destFile : string) (w1 : World)
      (videoFile : string) (w2 : World) (audioFile : string) (w3 : World) :
  getVideoAudioFormats D v quality mimetype = inr (vf, af) ->
  getOutputFile D E dl v vf outputFile w = (inr destFile, w1) ->
  os_CreateTemp E (filepath_Dir D destFile) "youtube_*.m4v" w1 = (inr videoFile, w2) ->
  os_CreateTemp E (filepath_Dir D destFile) "youtube_*.m4a" w2 = (inr audioFile, w3) ->
  let steps := videoDLWorker E dl videoFile v vf ;;;
               videoDLWorker E dl audioFile v af ;;;
               cmd_Run E (ffmpegArgs videoFile audioFile destFile) in
  DownloadComposite D E dl outputFile v quality mimetype w
  = (fst (steps w3),
     snd (os_Remove E videoFile (snd (os_Remove E audioFile (snd (steps w3)))))).
Proof.
  intros Hsel Hpath Hv Ha steps.
  unfold DownloadComposite. rewrite Hsel.
  unfold bind at 1. rewrite Hpath.
  unfold bind at 1. rewrite Hv.
  unfold defer at 1. unfold bind at 1. rewrite Ha.
  unfold defer at 1. fold steps.
  destruct (steps w3) as [r w4]. reflexivity.
Qed.

(** The three steps: the events they add and what they return. *)
Lemma composite_steps (dl : Downloader) (v : Video) (vf af : Format)
      (videoFile audioFile destFile : string) (w : World) (r : error + unit) (w' : World) :
  (videoDLWorker E dl videoFile v vf ;;;
   videoDLWorker E dl audioFile v af ;;;
   cmd_Run E (ffmpegArgs videoFile audioFile destFile)) w = (r, w') ->
  (trace w' = trace w ++ [EvOpenStream (ID v) (ItagNo vf)] /\ exists e, r = inl e)
  \/ (trace w' = trace w ++ [EvOpenStream (ID v) (ItagNo vf); EvOpenStream (ID v) (ItagNo af)]
      /\ exists e, r = inl e)
  \/ (exists res : option error,
        trace w' = trace w ++ [EvOpenStream (ID v) (ItagNo vf);
                               EvOpenStream (ID v) (ItagNo af);
                               EvExec (ffmpegArgs videoFile audioFile destFile) res]
        /\ r = match res with Some e => inl e | None => inr tt end).
Proof.
  unfold bind at 1.
  destruct (videoDLWorker E dl videoFile v vf w) as [[e|[]] w4] eqn:Hvideo;
    apply videoDLWorker_frame in Hvideo as (Ht4 & _).
  { intros [= <- <-]. left. eauto. }
  unfold bind at 1.
  destruct (videoDLWorker E dl audioFile v af w4) as [[e|[]] w5] eqn:Haudio;
    apply videoDLWorker_frame in Haudio as (Ht5 & _).
  { intros [= <- <-]. right. left. rewrite Ht5, Ht4, <- app_assoc. eauto. }
  intros Hrun. apply cmd_Run_inv in Hrun as (res & -> & Ht).
  right. right. exists res.
  rewrite Ht, Ht5, Ht4, <- !app_assoc. auto.
Qed.

(** Every run of DownloadComposite: it fails before it opens a stream,
    or it has selected the formats, resolved the path and created the
    two temporary files, and then fails in the video download, fails in
    the audio download, or runs the muxer and returns what Run returns. *)
Lemma DownloadComposite_cases (dl : Downloader) (outputFile : string) (v : Video)
      (quality mimetype : string) (w : World) (r : error + unit) (w' : World) :
  DownloadComposite D E dl outputFile v quality mimetype w = (r, w') ->
  (trace w' = trace w /\ exists e, r = inl e)
  \/ exists (vf af : Format) (destFile : string) (w1 : World)
            (videoFile : string) (w2 : World) (audioFile : string) (w3 : World),
      getVideoAudioFormats D v quality mimetype = inr (vf, af)
      /\ getOutputFile D E dl v vf outputFile w = (inr destFile, w1)
      /\ os_CreateTemp E (filepath_Dir D destFile) "youtube_*.m4v" w1 = (inr videoFile, w2)
      /\ os_CreateTemp E (filepath_Dir D destFile) "youtube_*.m4a" w2 = (inr audioFile, w3)
      /\ ((trace w' = trace w ++ [EvOpenStream (ID v) (ItagNo vf)] /\ exists e, r = inl e)
          \/ (trace w' = trace w ++ [EvOpenStream (ID v) (ItagNo vf);
                                     EvOpenStream (ID v) (ItagNo af)]
              /\ exists e, r = inl e)
          \/ (exists res : option error,
                trace w' = trace w ++ [EvOpenStream (ID v) (ItagNo vf);
                                       EvOpenStream (ID v) (ItagNo af);
                                       EvExec (ffmpegArgs videoFile audioFile destFile) res]
                /\ r = match res with Some e => inl e | None => inr tt end)).
Proof.
  intros Hrun.
  destruct (getVideoAudioFormats D v quality mimetype) as [e|[vf af]] eqn:Hsel.
  { unfold DownloadComposite in Hrun. rewrite Hsel in Hrun.
    injection Hrun as <- <-. left. eauto. }
  destruct (getOutputFile D E dl v vf outputFile w) as [[e|destFile] w1] eqn:Hpath.
  { unfold DownloadComposite in Hrun. rewrite Hsel in Hrun.
    unfold bind at 1 in Hrun. rewrite Hpath in Hrun.
    injection Hrun as <- <-. left.
    apply getOutputFile_frame in Hpath as (_ & Ht & _). eauto. }
  pose proof (getOutputFile_frame D E _ _ _ _ _ _ _ Hpath) as (_ & Ht1 & _).
  destruct (os_CreateTemp E (filepath_Dir D destFile) "youtube_*.m4v" w1)
    as [[e|videoFile] w2] eqn:Hv.
  { unfold DownloadComposite in Hrun. rewrite Hsel in Hrun.
    unfold bind at 1 in Hrun. rewrite Hpath in Hrun.
    unfold bind at 1 in Hrun. rewrite Hv in Hrun.
    injection Hrun as <- <-. left.
    unfold os_CreateTemp in Hv.
    destruct (tempFile E w1 (filepath_Dir D destFile) "youtube_*.m4v"); [|discriminate].
    injection Hv as <- <-. eauto. }
  pose proof (os_CreateTemp_inv _ _ _ _ _ _ Hv) as Hw2.
  destruct (os_CreateTemp E (filepath_Dir D destFile) "youtube_*.m4a" w2)
    as [[e|audioFile] w3] eqn:Ha.
  { unfold DownloadComposite in Hrun. rewrite Hsel in Hrun.
    unfold bind at 1 in Hrun. rewrite Hpath in Hrun.
    unfold bind at 1 in Hrun. rewrite Hv in Hrun.
    unfold defer at 1 in Hrun. unfold bind at 1 in Hrun. rewrite Ha in Hrun.
    injection Hrun as <- <-. left.
    unfold os_CreateTemp in Ha.
    destruct (tempFile E w2 (filepath_Dir D destFile) "youtube_*.m4a"); [|discriminate].
    injection Ha as <- <-. rewrite os_Remove_trace. subst w2. simpl. eauto. }
  pose proof (os_CreateTemp_inv _ _ _ _ _ _ Ha) as Hw3.
  assert (Ht3 : trace w3 = trace w) by (subst w3 w2; exact Ht1).
  rewrite (DownloadComposite_eq dl outputFile v quality mimetype w
             vf af destFile w1 videoFile w2 audioFile w3 Hsel Hpath Hv Ha) in Hrun.
  cbv zeta in Hrun.
  match type of Hrun with
  | (fst (?steps w3), _) = _ => destruct (steps w3) as [r0 w4] eqn:Hsteps
  end.
  injection Hrun as <- <-.
  right. exists vf, af, destFile, w1, videoFile, w2, audioFile, w3.
  repeat (split; [reflexivity || assumption|]).
  apply composite_steps in Hsteps. cbn [fst snd].
  rewrite !os_Remove_trace, <- Ht3. exact Hsteps.
Qed.



End CompositeFacts.




(** The four exits of the specification, run on the code where no
    removal is refused: each returns with the temporary files gone. *)
Example composite_success :
  let run := DownloadComposite Demo.deps (Demo.env Demo.streamOk Demo.ffmpegOk) Demo.dl0
                               "movie.mp4" Demo.video_split "hd1080" "" Demo.world0 in
  fst run = inr tt /\ map_to_list (files (snd run)) = [("movie.mp4", [x00])].
Proof. vm_compute. split; reflexivity. Qed.

Example composite_video_download_fails :
  let run := DownloadComposite Demo.deps (Demo.env Demo.streamRefused Demo.ffmpegOk) Demo.dl0
                               "movie.mp4" Demo.video_split "hd1080" "" Demo.world0 in
  fst run = inl (StreamError "cannot open the stream")
  /\ map_to_list (files (snd run)) = []
  /\ trace (snd run) = [EvOpenStream "vid1" 137].
Proof. vm_compute. repeat split; reflexivity. Qed.

Example composite_audio_download_fails :
  let run := DownloadComposite Demo.deps (Demo.env Demo.streamAudioBreaks Demo.ffmpegOk) Demo.dl0
                               "movie.mp4" Demo.video_split "hd1080" "mp4" Demo.world0 in
  fst run = inl (StreamError "connection reset")
  /\ map_to_list (files (snd run)) = []
  /\ trace (snd run) = [EvOpenStream "vid1" 137; EvOpenStream "vid1" 140].
Proof. vm_compute. repeat split; reflexivity. Qed.

Example composite_merge_fails :
  let run := DownloadComposite Demo.deps (Demo.env Demo.streamOk Demo.ffmpegMergeFails) Demo.dl0
                               "movie.mp4" Demo.video_split "hd1080" "" Demo.world0 in
  fst run = inl (ExitError 1) /\ map_to_list (files (snd run)) = [].
Proof. vm_compute. split; reflexivity. Qed.

(** C6. When DownloadComposite returns without error, it has started one
    subprocess, after the two streams, with the arguments in this order:
    ffmpeg, the force-overwrite flag, the temporary video file and the
    temporary audio file as inputs, the stream-copy flag, the
    shortest-stream flag, the destination, the log-level flag. *)
Theorem DownloadComposite_runs_muxer_once :
  forall (D : Deps) (E : Env) (dl : Downloader) (outputFile : string) (v : Video)
         (quality mimetype : string) (w w' : World),
    DownloadComposite D E dl outputFile v quality mimetype w = (inr tt, w') ->
    exists (vf af : Format) (destFile : string) (w1 : World)
           (videoFile : string) (w2 : World) (audioFile : string) (w3 : World),
      getVideoAudioFormats D v quality mimetype = inr (vf, af)
      /\ getOutputFile D E dl v vf outputFile w = (inr destFile, w1)
      /\ os_CreateTemp E (filepath_Dir D destFile) "youtube_*.m4v" w1 = (inr videoFile, w2)
      /\ os_CreateTemp E (filepath_Dir D destFile) "youtube_*.m4a" w2 = (inr audioFile, w3)
      /\ trace w' = trace w ++
           [EvOpenStream (ID v) (ItagNo vf);
            EvOpenStream (ID v) (ItagNo af);
            EvExec ["ffmpeg"; "-y"; "-i"; videoFile; "-i"; audioFile;
                    "-c"; "copy"; "-shortest"; destFile; "-loglevel"; "warning"] None].
Proof.
  intros D E dl outputFile v quality mimetype w w' Hrun.
  apply DownloadComposite_cases in Hrun as [[_ [e He]]|Hrun]; [discriminate|].
  destruct Hrun as (vf & af & destFile & w1 & videoFile & w2 & audioFile & w3
                    & Hsel & Hpath & Hv & Ha & Hsteps).
  exists vf, af, destFile, w1, videoFile, w2, audioFile, w3.
  repeat (split; [assumption|]).
  destruct Hsteps as [[_ [e He]]|[[_ [e He]]|(res & Ht & Hr)]]; try discriminate.
  destruct res; [discriminate|]. exact Ht.
Qed.

Lemma DownloadComposite_runs_muxer_once_witness :
  let run := DownloadComposite Demo.deps (Demo.env Demo.streamOk Demo.ffmpegOk) Demo.dl0
                               "movie.mp4" Demo.video_split "hd1080" "" Demo.world0 in
  exists (vf af : Format) (destFile videoFile audioFile : string),
    trace (snd run) = trace Demo.world0 ++
      [EvOpenStream "vid1" (ItagNo vf);
       EvOpenStream "vid1" (ItagNo af);
       EvExec ["ffmpeg"; "-y"; "-i"; videoFile; "-i"; audioFile;
               "-c"; "copy"; "-shortest"; destFile; "-loglevel"; "warning"] None].
Proof.
  intros run.
  destruct (DownloadComposite_runs_muxer_once
              Demo.deps (Demo.env Demo.streamOk Demo.ffmpegOk) Demo.dl0
              "movie.mp4" Demo.video_split "hd1080" "" Demo.world0 (snd run))
    as (vf & af & destFile & w1 & videoFile & w2 & audioFile & w3 & _ & _ & _ & _ & Ht).
  - vm_compute. reflexivity.
  - exists vf, af, destFile, videoFile, audioFile. exact Ht.
Defined.

(** ** The muxer's errors and the probe *)








(** ** The progress bar *)




(** * Further properties of the code *)

(** ** Format selection: what a returned pair satisfies *)

Lemma head_Sort_Some (D : Deps) (l : FormatList) (x : Format) :
  (if 0 <? Z.of_nat (length l) then head (FormatList_Sort D l) else None) = Some x ->
  In x l.
Proof.
  destruct (0 <? Z.of_nat (length l)); [|discriminate].
  intros H. apply (FormatList_Sort_In D).
  destruct (FormatList_Sort D l) as [|y s]; [discriminate|].
  injection H as ->. now left.
Qed.

(** X1. Whenever getVideoAudioFormats returns a pair, both formats come
    from the catalog and have passed every filter that was asked for:
    the video format also the quality filter and the MIME narrowing, the
    audio format also the MIME narrowing. *)
Theorem getVideoAudioFormats_sound :
  forall (D : Deps) (v : Video) (quality mimetype : string) (vf af : Format),
    getVideoAudioFormats D v quality mimetype = inr (vf, af) ->
    In vf (Formats v) /\ videoCandidate D quality mimetype vf = true
    /\ In af (Formats v) /\ audioCandidate D mimetype af = true.
Proof.
  intros D v quality mimetype vf af. unfold getVideoAudioFormats. cbv zeta.
  match goal with
  | |- match ?a with _ => _ end = _ -> _ => destruct a as [x|] eqn:Hv; [|discriminate]
  end.
  match goal with
  | |- match ?a with _ => _ end = _ -> _ => destruct a as [y|] eqn:Ha; [|discriminate]
  end.
  intros [= <- <-].
  apply head_Sort_Some in Hv. apply head_Sort_Some in Ha.
  apply (videoFormats_In D v quality mimetype x) in Hv.
  apply (audioFormats_In D v mimetype y) in Ha.
  tauto.
Qed.

Lemma getVideoAudioFormats_sound_witness :
  In Demo.f137 (Formats Demo.video_split)
  /\ videoCandidate Demo.deps "hd1080" "mp4" Demo.f137 = true
  /\ In Demo.f140 (Formats Demo.video_split)
  /\ audioCandidate Demo.deps "mp4" Demo.f140 = true.
Proof.
  apply (getVideoAudioFormats_sound Demo.deps Demo.video_split "hd1080" "mp4").
  reflexivity.
Defined.

(** X2. When the catalog has a video candidate and no audio candidate,
    getVideoAudioFormats fails with the audio error. *)
Theorem getVideoAudioFormats_audio_missing :
  forall (D : Deps) (v : Video) (quality mimetype : string) (f : Format),
    In f (Formats v) -> videoCandidate D quality mimetype f = true ->
    (forall a, In a (Formats v) -> audioCandidate D mimetype a = false) ->
    getVideoAudioFormats D v quality mimetype
    = inl (Errorf "no audio format found after filtering").
Proof.
  intros D v quality mimetype f Hf Hfc Hnone.
  pose proof (proj2 (videoFormats_In D v quality mimetype f) (conj Hf Hfc)) as Hv.
  cbv zeta in Hv.
  destruct (head_Sort D _ _ Hv) as (vf & Hvf & _).
  unfold getVideoAudioFormats. cbv zeta.
  rewrite (length_pos_In _ _ Hv), Hvf.
  match goal with
  | |- match ?a with _ => _ end = _ => destruct a as [y|] eqn:Ha; [|reflexivity]
  end.
  apply head_Sort_Some in Ha.
  apply (audioFormats_In D v mimetype y) in Ha as [Hin Hc].
  rewrite (Hnone y Hin) in Hc. discriminate.
Qed.

Lemma getVideoAudioFormats_audio_missing_witness :
  getVideoAudioFormats Demo.deps Demo.video_split "hd1080" "video/mp4"
  = inl (Errorf "no audio format found after filtering").
Proof.
  apply (getVideoAudioFormats_audio_missing Demo.deps Demo.video_split "hd1080" "video/mp4"
           Demo.f137).
  - simpl. tauto.
  - reflexivity.
  - intros a Ha. simpl in Ha.
    destruct Ha as [<-|[<-|[<-|[<-|[<-|[]]]]]]; reflexivity.
Defined.

(** X3. The quality filter bears on the video format only: two
    selections on the same catalog and MIME type that differ in the
    quality asked for return the same audio format. *)
Theorem getVideoAudioFormats_audio_ignores_quality :
  forall (D : Deps) (v : Video) (quality quality' mimetype : string)
         (vf af vf' af' : Format),
    getVideoAudioFormats D v quality mimetype = inr (vf, af) ->
    getVideoAudioFormats D v quality' mimetype = inr (vf', af') ->
    af = af'.
Proof.
  intros D v quality quality' mimetype vf af vf' af'.
  unfold getVideoAudioFormats. cbv zeta.
  match goal with
  | |- match ?a with _ => _ end = _ -> match ?b with _ => _ end = _ -> _ =>
      destruct a; [|discriminate]; destruct b; [|intros _; discriminate]
  end.
  match goal with
  | |- match ?a with _ => _ end = _ -> _ => destruct a; [|discriminate]
  end.
  intros [= _ <-] [= _ <-]. reflexivity.
Qed.

Lemma getVideoAudioFormats_audio_ignores_quality_witness :
  getVideoAudioFormats Demo.deps Demo.video_split "hd1080" "" = inr (Demo.f137, Demo.f251)
  /\ getVideoAudioFormats Demo.deps Demo.video_split "" "" = inr (Demo.f137, Demo.f251)
  /\ Demo.f251 = Demo.f251.
Proof.
  split; [reflexivity|]. split; [reflexivity|].
  apply (getVideoAudioFormats_audio_ignores_quality Demo.deps Demo.video_split
           "hd1080" "" "" Demo.f137 Demo.f251 Demo.f137 Demo.f251); reflexivity.
Defined.

(** ** Single-stream downloads: what ends up in the destination *)

Section CopyNoFault.

Variable E : Env.
Variable out : string.

Hypothesis no_write_fault : forall (w0 : World) (p : list byte), writeFault E w0 out p = None.

(** Without write faults the loop hands every buffer to the file and
    ends as the stream ends. *)
Lemma io_Copy_no_fault (bufs : list (list byte)) :
  forall (eof : option error) (written : Z) (w : World) (prog : progress) (c0 : list byte),
    files w !! out = Some c0 ->
    let r := io_Copy E (MultiWriter [file_Write E out; progress_Write]) bufs eof written (w, prog) in
    snd (fst r) = eof
    /\ files (fst (snd r)) !! out = Some (c0 ++ concat bufs).
Proof.
  induction bufs as [|buf rest IH]; intros eof written w prog c0 Hc0; cbv zeta.
  - simpl. rewrite app_nil_r. auto.
  - rewrite io_Copy_step. cbv zeta.
    destruct (Nat.ltb 0 (length buf)) eqn:Hlen.
    + rewrite no_write_fault.
      cbn [concat]. rewrite app_assoc.
      apply IH. cbn [files set_files bar_IncrBy set_display].
      rewrite lookup_alter_eq, Hc0. reflexivity.
    + apply Nat.ltb_ge in Hlen.
      assert (buf = []) as -> by (destruct buf; simpl in Hlen; [reflexivity|lia]).
      cbn [concat app]. apply IH. exact Hc0.
Qed.

(** The worker on a stream that could be opened: it returns as the
    stream ends, and the file has got every byte the stream delivered. *)
Lemma videoDLWorker_no_fault (dl : Downloader) (v : Video) (f : Format) (w : World)
      (stream : Stream) (size : Z) (c0 : list byte) :
  GetStreamContext E w v f = inr (stream, size) ->
  files w !! out = Some c0 ->
  let run := videoDLWorker E dl out v f w in
  fst run = match readErr stream with Some e => inl e | None => inr tt end
  /\ files (snd run) !! out = Some (c0 ++ concat (chunks stream)).
Proof.
  intros Hopen Hc0. cbv zeta. rewrite videoDLWorker_eq. cbv zeta. rewrite Hopen.
  unfold copyStream.
  match goal with
  | |- context [io_Copy ?E0 ?m ?b ?e ?n (?w1, ?p)] =>
      pose proof (io_Copy_no_fault b e n w1 p c0 Hc0) as Hcopy;
      cbv zeta in Hcopy;
      destruct (io_Copy E0 m b e n (w1, p)) as [[n' err] st]
  end.
  cbn [fst snd] in Hcopy. destruct Hcopy as [-> Hfile].
  destruct (readErr stream); cbn [fst snd]; auto.
Qed.

End CopyNoFault.

(** X4. Download and DownloadByItag, when the path is resolved, the
    destination created and the stream opened, and no write to the
    destination fails: the call returns nil when the stream ends with
    io.EOF and the error of the stream otherwise, and in both cases the
    destination holds exactly the bytes the stream delivered, whatever
    it held before. A stream that breaks leaves its partial content on
    disk. *)
Theorem Download_writes_stream :
  forall (D : Deps) (E : Env) (dl : Downloader) (v : Video) (format : Format)
         (outputFile : string) (w : World) (destFile : string) (w1 : World)
         (out : string) (w2 : World) (stream : Stream) (size : Z),
    getOutputFile D E dl v format outputFile w = (inr destFile, w1) ->
    os_Create E destFile w1 = (inr out, w2) ->
    GetStreamContext E w2 v format = inr (stream, size) ->
    (forall (w0 : World) (p : list byte), writeFault E w0 destFile p = None) ->
    (let run := Download D E dl v format outputFile w in
     fst run = match readErr stream with Some e => inl e | None => inr tt end
     /\ files (snd run) !! destFile = Some (concat (chunks stream)))
    /\ (forall itag, getFormatByItag v itag = inr format ->
          let run := DownloadByItag D E dl outputFile v itag w in
          fst run = match readErr stream with Some e => inl e | None => inr tt end
          /\ files (snd run) !! destFile = Some (concat (chunks stream))).
Proof.
  intros D E dl v format outputFile w destFile w1 out w2 stream size
         Hpath Hcreate Hopen Hno.
  destruct (os_Create_inv _ _ _ _ _ Hcreate) as [-> Hw2].
  assert (Hempty : files w2 !! destFile = Some []).
  { rewrite Hw2. simpl. apply lookup_insert_eq. }
  pose proof (videoDLWorker_no_fault E destFile Hno dl v format w2 stream size []
                Hopen Hempty) as Hrun.
  cbv zeta in Hrun. rewrite app_nil_l in Hrun.
  split.
  - cbv zeta. unfold Download, bind, defer, file_Close, ret. rewrite Hpath, Hcreate.
    destruct (videoDLWorker E dl destFile v format w2) as [r w3]. exact Hrun.
  - intros itag Hitag. cbv zeta.
    unfold DownloadByItag, bind, defer, file_Close, ret. rewrite Hitag, Hpath, Hcreate.
    destruct (videoDLWorker E dl destFile v format w2) as [[e|[]] w3];
      cbn [fst snd] in *; exact Hrun.
Qed.

Lemma Download_writes_stream_witness :
  let ok := Download Demo.deps (Demo.env Demo.streamOk Demo.ffmpegOk) Demo.dl0
                     Demo.video_split Demo.f18 "" Demo.worldOld in
  let broken := DownloadByItag Demo.deps (Demo.env Demo.streamAudioBreaks Demo.ffmpegOk) Demo.dl0
                               "" Demo.video_split 140 Demo.world0 in
  (files Demo.worldOld !! "Test Video.mp4" = Some [x09; x09; x09; x09; x09; x09; x09]
   /\ fst ok = inr tt
   /\ files (snd ok) !! "Test Video.mp4" = Some [x01; x02; x03; x04; x05])
  /\ (fst broken = inl (StreamError "connection reset")
      /\ files (snd broken) !! "Test Video.m4a" = Some [x01; x02; x03]).
Proof.
  intros ok broken. split.
  - split; [reflexivity|].
    apply (proj1 (Download_writes_stream
                    Demo.deps (Demo.env Demo.streamOk Demo.ffmpegOk) Demo.dl0
                    Demo.video_split Demo.f18 "" Demo.worldOld
                    _ _ _ _ (mkStream [Demo.bytes3; Demo.bytes2] None) 5
                    eq_refl eq_refl eq_refl (fun _ _ => eq_refl))).
  - apply (proj2 (Download_writes_stream
                    Demo.deps (Demo.env Demo.streamAudioBreaks Demo.ffmpegOk) Demo.dl0
                    Demo.video_split Demo.f140 "" Demo.world0
                    _ _ _ _ (mkStream [Demo.bytes3] (Some (StreamError "connection reset"))) 5
                    eq_refl eq_refl eq_refl (fun _ _ => eq_refl)) 140 eq_refl).
Defined.

(** ** Single-stream downloads: what they leave alone *)

Section SingleStreamFacts.

Variable D : Deps.
Variable E : Env.

(** Every run of Download: either it fails before it opens a stream and
    changes no file, or it has resolved the path and created the
    destination, opens one stream, and changes no file but the
    destination. *)
Lemma Download_cases (dl : Downloader) (v : Video) (format : Format) (outputFile : string)
      (w : World) (r : error + unit) (w' : World) :
  Download D E dl v format outputFile w = (r, w') ->
  (trace w' = trace w /\ files w' = files w /\ exists e, r = inl e)
  \/ (exists destFile w1,
        getOutputFile D E dl v format outputFile w = (inr destFile, w1)
        /\ trace w' = trace w ++ [EvOpenStream (ID v) (ItagNo format)]
        /\ (forall p, p <> destFile -> files w' !! p = files w !! p)).
Proof.
  unfold Download, bind, defer, file_Close, ret.
  destruct (getOutputFile D E dl v format outputFile w) as [[e|destFile] w1] eqn:Hpath.
  { intros [= <- <-]. left.
    apply getOutputFile_frame in Hpath as (Hf & Ht & _). eauto. }
  pose proof (getOutputFile_frame D E _ _ _ _ _ _ _ Hpath) as (Hf1 & Ht1 & _).
  unfold os_Create. destruct (createFault E w1 destFile) as [e|].
  { intros [= <- <-]. left. eauto. }
  match goal with
  | |- context [videoDLWorker E dl destFile v format ?w2] =>
      destruct (videoDLWorker E dl destFile v format w2) as [r3 w3] eqn:Hrun
  end.
  intros [= <- <-].
  apply videoDLWorker_frame in Hrun as (Ht & _ & _ & Hother & _).
  right. exists destFile, w1. split; [reflexivity|].
  cbn [trace files set_files] in *. rewrite Ht, Ht1. split; [reflexivity|].
  intros p Hp. rewrite (Hother p Hp), lookup_insert_ne by auto. now rewrite Hf1.
Qed.

(** The same for DownloadByItag, which first looks the format up. *)
Lemma DownloadByItag_cases (dl : Downloader) (outputFile : string) (v : Video) (itag : Z)
      (w : World) (r : error + unit) (w' : World) :
  DownloadByItag D E dl outputFile v itag w = (r, w') ->
  (trace w' = trace w /\ files w' = files w /\ exists e, r = inl e)
  \/ (exists format destFile w1,
        getFormatByItag v itag = inr format
        /\ getOutputFile D E dl v format outputFile w = (inr destFile, w1)
        /\ trace w' = trace w ++ [EvOpenStream (ID v) (ItagNo format)]
        /\ (forall p, p <> destFile -> files w' !! p = files w !! p)).
Proof.
  unfold DownloadByItag.
  destruct (getFormatByItag v itag) as [e|format] eqn:Hitag.
  { intros [= <- <-]. left. eauto. }
  unfold bind, defer, file_Close, ret.
  destruct (getOutputFile D E dl v format outputFile w) as [[e|destFile] w1] eqn:Hpath.
  { intros [= <- <-]. left.
    apply getOutputFile_frame in Hpath as (Hf & Ht & _). eauto. }
  pose proof (getOutputFile_frame D E _ _ _ _ _ _ _ Hpath) as (Hf1 & Ht1 & _).
  unfold os_Create. destruct (createFault E w1 destFile) as [e|].
  { intros [= <- <-]. left. eauto. }
  match goal with
  | |- context [videoDLWorker E dl destFile v format ?w2] =>
      destruct (videoDLWorker E dl destFile v format w2) as [r3 w3] eqn:Hrun
  end.
  apply videoDLWorker_frame in Hrun as (Ht & _ & _ & Hother & _).
  intros Hres.
  assert (w' = w3) as -> by (destruct r3 as [?|[]]; injection Hres as _ <-; reflexivity).
  right. exists format, destFile, w1. split; [reflexivity|]. split; [exact Hpath|].
  cbn [trace files set_files] in *. rewrite Ht, Ht1. split; [reflexivity|].
  intros p Hp. rewrite (Hother p Hp), lookup_insert_ne by auto. now rewrite Hf1.
Qed.

End SingleStreamFacts.

(** X5. Download and DownloadByItag open at most one stream, start no
    subprocess, and change no file other than the destination that
    getOutputFile computes; when the path cannot be resolved, no file is
    changed at all. *)
Theorem Download_touches_only_destination :
  forall (D : Deps) (E : Env) (dl : Downloader) (v : Video) (format : Format)
         (outputFile : string) (w : World),
    (let run := Download D E dl v format outputFile w in
     (trace (snd run) = trace w
      \/ trace (snd run) = trace w ++ [EvOpenStream (ID v) (ItagNo format)])
     /\ (forall p, fst (getOutputFile D E dl v format outputFile w) <> inr p ->
           files (snd run) !! p = files w !! p))
    /\ (forall itag,
          getFormatByItag v itag = inr format ->
          let run := DownloadByItag D E dl outputFile v itag w in
          (trace (snd run) = trace w
           \/ trace (snd run) = trace w ++ [EvOpenStream (ID v) (ItagNo format)])
          /\ (forall p, fst (getOutputFile D E dl v format outputFile w) <> inr p ->
                files (snd run) !! p = files w !! p)).
Proof.
  intros D E dl v format outputFile w. split.
  - cbv zeta.
    destruct (Download D E dl v format outputFile w) as [r w'] eqn:Hrun.
    apply Download_cases in Hrun as [(Ht & Hf & _)|(destFile & w1 & Hpath & Ht & Hother)];
      cbn [snd].
    + split; [now left|]. intros p _. now rewrite Hf.
    + split; [now right|]. intros p Hp. apply Hother.
      intros ->. apply Hp. now rewrite Hpath.
  - intros itag Hitag. cbv zeta.
    destruct (DownloadByItag D E dl outputFile v itag w) as [r w'] eqn:Hrun.
    apply DownloadByItag_cases in Hrun
      as [(Ht & Hf & _)|(format' & destFile & w1 & Hitag' & Hpath & Ht & Hother)];
      cbn [snd].
    + split; [now left|]. intros p _. now rewrite Hf.
    + rewrite Hitag in Hitag'. injection Hitag' as <-.
      split; [now right|]. intros p Hp. apply Hother.
      intros ->. apply Hp. now rewrite Hpath.
Qed.

Lemma Download_touches_only_destination_witness :
  let run := DownloadByItag Demo.deps (Demo.env Demo.streamOk Demo.ffmpegOk) Demo.dl0
                            "" Demo.video_split 18 Demo.worldOld in
  (trace (snd run) = trace Demo.worldOld
   \/ trace (snd run) = trace Demo.worldOld ++ [EvOpenStream "vid1" 18])
  /\ files (snd run) !! "Other.mp4" = files Demo.worldOld !! "Other.mp4".
Proof.
  intros run.
  destruct (proj2 (Download_touches_only_destination
                     Demo.deps (Demo.env Demo.streamOk Demo.ffmpegOk) Demo.dl0
                     Demo.video_split Demo.f18 "" Demo.worldOld) 18 eq_refl) as [Ht Hf].
  split; [exact Ht|]. apply Hf. discriminate.
Defined.

(** X6. When Download cannot resolve the path (MkdirAll fails) or cannot
    create the destination, it returns that error, opens no stream and
    changes no file. *)
Theorem Download_fails_before_stream :
  forall (D : Deps) (E : Env) (dl : Downloader) (v : Video) (format : Format)
         (outputFile : string) (w : World) (e : error),
    let run := Download D E dl v format outputFile w in
    (forall w1, getOutputFile D E dl v format outputFile w = (inl e, w1) ->
       fst run = inl e /\ trace (snd run) = trace w /\ files (snd run) = files w)
    /\ (forall destFile w1,
          getOutputFile D E dl v format outputFile w = (inr destFile, w1) ->
          createFault E w1 destFile = Some e ->
          fst run = inl e /\ trace (snd run) = trace w /\ files (snd run) = files w).
Proof.
  intros D E dl v format outputFile w e. cbv zeta. split.
  - intros w1 Hpath.
    pose proof (getOutputFile_frame D E _ _ _ _ _ _ _ Hpath) as (Hf & Ht & _).
    unfold Download, bind. rewrite Hpath. cbn [fst snd]. auto.
  - intros destFile w1 Hpath Hcreate.
    pose proof (getOutputFile_frame D E _ _ _ _ _ _ _ Hpath) as (Hf & Ht & _).
    unfold Download, bind, os_Create. rewrite Hpath, Hcreate. cbn [fst snd]. auto.
Qed.

Lemma Download_fails_before_stream_witness :
  let run := Download Demo.deps Demo.envCreateFails Demo.dl0
                      Demo.video_split Demo.f18 "" Demo.worldOld in
  fst run = inl (PathError "open" "Test Video.mp4")
  /\ trace (snd run) = trace Demo.worldOld
  /\ files (snd run) = files Demo.worldOld.
Proof.
  apply (proj2 (Download_fails_before_stream Demo.deps Demo.envCreateFails Demo.dl0
                  Demo.video_split Demo.f18 "" Demo.worldOld
                  (PathError "open" "Test Video.mp4")) "Test Video.mp4" Demo.worldOld);
    reflexivity.
Defined.

(** ** The composite download: failures on the way *)

(** X7. With the formats selected, the path resolved and both temporary
    files created: when the video download fails, DownloadComposite
    returns its error, the audio stream is never opened and the muxer is
    not run; when the audio download fails, DownloadComposite returns
    its error and the muxer is not run. In both cases no file other than
    the two temporary files has changed: the destination is not written. *)
Theorem DownloadComposite_stops_at_first_failure :
  forall (D : Deps) (E : Env) (dl : Downloader) (outputFile : string) (v : Video)
         (quality mimetype : string) (w : World)
         (vf af : Format) (destFile : string) (w1 : World)
         (videoFile : string) (w2 : World) (audioFile : string) (w3 : World),
    getVideoAudioFormats D v quality mimetype = inr (vf, af) ->
    getOutputFile D E dl v vf outputFile w = (inr destFile, w1) ->
    os_CreateTemp E (filepath_Dir D destFile) "youtube_*.m4v" w1 = (inr videoFile, w2) ->
    os_CreateTemp E (filepath_Dir D destFile) "youtube_*.m4a" w2 = (inr audioFile, w3) ->
    let run := DownloadComposite D E dl outputFile v quality mimetype w in
    (forall e w4,
       videoDLWorker E dl videoFile v vf w3 = (inl e, w4) ->
       fst run = inl e
       /\ trace (snd run) = trace w ++ [EvOpenStream (ID v) (ItagNo vf)]
       /\ (forall p, p <> videoFile -> p <> audioFile ->
             files (snd run) !! p = files w !! p))
    /\ (forall w4 e w5,
          videoDLWorker E dl videoFile v vf w3 = (inr tt, w4) ->
          videoDLWorker E dl audioFile v af w4 = (inl e, w5) ->
          fst run = inl e
          /\ trace (snd run) = trace w ++ [EvOpenStream (ID v) (ItagNo vf);
                                           EvOpenStream (ID v) (ItagNo af)]
          /\ (forall p, p <> videoFile -> p <> audioFile ->
                files (snd run) !! p = files w !! p)).
Proof.
  intros D E dl outputFile v quality mimetype w vf af destFile w1 videoFile w2
         audioFile w3 Hsel Hpath Hv Ha run.
  subst run.
  rewrite (DownloadComposite_eq D E dl outputFile v quality mimetype w
             vf af destFile w1 videoFile w2 audioFile w3 Hsel Hpath Hv Ha).
  cbv zeta.
  pose proof (getOutputFile_frame D E _ _ _ _ _ _ _ Hpath) as (Hf1 & Ht1 & _).
  pose proof (os_CreateTemp_inv _ _ _ _ _ _ Hv) as Hw2.
  pose proof (os_CreateTemp_inv _ _ _ _ _ _ Ha) as Hw3.
  assert (Ht3 : trace w3 = trace w) by (subst w3 w2; exact Ht1).
  assert (Hf3 : forall p, p <> videoFile -> p <> audioFile -> files w3 !! p = files w !! p).
  { intros p Hpv Hpa. subst w3 w2. cbn [files set_files].
    rewrite !lookup_insert_ne by auto. now rewrite Hf1. }
  split.
  - intros e w4 Hvideo.
    assert (Hsteps : (videoDLWorker E dl videoFile v vf ;;;
                      videoDLWorker E dl audioFile v af ;;;
                      cmd_Run E (ffmpegArgs videoFile audioFile destFile)) w3 = (inl e, w4))
      by (unfold bind; rewrite Hvideo; reflexivity).
    rewrite Hsteps.
    apply videoDLWorker_frame in Hvideo as (Ht4 & _ & _ & Hother & _).
    cbn [fst snd].
    split; [reflexivity|]. split; [now rewrite !os_Remove_trace, Ht4, Ht3|].
    intros p Hpv Hpa. rewrite !os_Remove_other by auto.
    rewrite (Hother p Hpv). auto.
  - intros w4 e w5 Hvideo Haudio.
    assert (Hsteps : (videoDLWorker E dl videoFile v vf ;;;
                      videoDLWorker E dl audioFile v af ;;;
                      cmd_Run E (ffmpegArgs videoFile audioFile destFile)) w3 = (inl e, w5))
      by (unfold bind; rewrite Hvideo, Haudio; reflexivity).
    rewrite Hsteps.
    apply videoDLWorker_frame in Hvideo as (Ht4 & _ & _ & Hother4 & _).
    apply videoDLWorker_frame in Haudio as (Ht5 & _ & _ & Hother5 & _).
    cbn [fst snd].
    split; [reflexivity|]. split; [now rewrite !os_Remove_trace, Ht5, Ht4, Ht3, <- app_assoc|].
    intros p Hpv Hpa. rewrite !os_Remove_other by auto.
    rewrite (Hother5 p Hpa), (Hother4 p Hpv). auto.
Qed.

Lemma DownloadComposite_stops_at_first_failure_witness :
  let video := DownloadComposite Demo.deps (Demo.env Demo.streamRefused Demo.ffmpegOk) Demo.dl0
                                 "Test Video.mp4" Demo.video_split "hd1080" "" Demo.worldOld in
  let audio := DownloadComposite Demo.deps (Demo.env Demo.streamAudioBreaks Demo.ffmpegOk) Demo.dl0
                                 "Test Video.mp4" Demo.video_split "hd1080" "mp4" Demo.worldOld in
  (fst video = inl (StreamError "cannot open the stream")
   /\ trace (snd video) = trace Demo.worldOld ++ [EvOpenStream "vid1" 137]
   /\ files (snd video) !! "Test Video.mp4" = files Demo.worldOld !! "Test Video.mp4")
  /\ (fst audio = inl (StreamError "connection reset")
      /\ trace (snd audio) = trace Demo.worldOld ++ [EvOpenStream "vid1" 137;
                                                     EvOpenStream "vid1" 140]
      /\ files (snd audio) !! "Test Video.mp4" = files Demo.worldOld !! "Test Video.mp4").
Proof.
  intros video audio. split.
  - destruct (proj1 (DownloadComposite_stops_at_first_failure
                       Demo.deps (Demo.env Demo.streamRefused Demo.ffmpegOk) Demo.dl0
                       "Test Video.mp4" Demo.video_split "hd1080" "" Demo.worldOld
                       Demo.f137 Demo.f251 _ _ _ _ _ _ eq_refl eq_refl eq_refl eq_refl)
                    (StreamError "cannot open the stream") _ eq_refl) as (Hr & Ht & Hf).
    split; [exact Hr|]. split; [exact Ht|]. apply Hf; discriminate.
  - destruct (proj2 (DownloadComposite_stops_at_first_failure
                       Demo.deps (Demo.env Demo.streamAudioBreaks Demo.ffmpegOk) Demo.dl0
                       "Test Video.mp4" Demo.video_split "hd1080" "mp4" Demo.worldOld
                       Demo.f137 Demo.f140 _ _ _ _ _ _ eq_refl eq_refl eq_refl eq_refl)
                    _ (StreamError "connection reset") _ eq_refl eq_refl) as (Hr & Ht & Hf).
    split; [exact Hr|]. split; [exact Ht|]. apply Hf; discriminate.
Defined.

(** X8. When the temporary video file was created and the temporary
    audio file cannot be, DownloadComposite returns that error, calls
    os.Remove on the video file, opens no stream, and leaves every other
    file as it was. The video file is gone when that removal is not
    refused; when it is refused the file stays, empty, and the error of
    the removal is dropped. *)
Theorem DownloadComposite_audio_temp_fails :
  forall (D : Deps) (E : Env) (dl : Downloader) (outputFile : string) (v : Video)
         (quality mimetype : string) (w : World)
         (vf af : Format) (destFile : string) (w1 : World)
         (videoFile : string) (w2 : World) (e : error),
    getVideoAudioFormats D v quality mimetype = inr (vf, af) ->
    getOutputFile D E dl v vf outputFile w = (inr destFile, w1) ->
    os_CreateTemp E (filepath_Dir D destFile) "youtube_*.m4v" w1 = (inr videoFile, w2) ->
    tempFile E w2 (filepath_Dir D destFile) "youtube_*.m4a" = inl e ->
    let run := DownloadComposite D E dl outputFile v quality mimetype w in
    fst run = inl e
    /\ trace (snd run) = trace w
    /\ (forall p, p <> videoFile -> files (snd run) !! p = files w !! p)
    /\ (removeFault E w2 videoFile = None -> files (snd run) !! videoFile = None)
    /\ (removeFault E w2 videoFile <> None -> files (snd run) !! videoFile = Some []).
Proof.
  intros D E dl outputFile v quality mimetype w vf af destFile w1 videoFile w2 e
         Hsel Hpath Hv Ha run.
  subst run.
  pose proof (getOutputFile_frame D E _ _ _ _ _ _ _ Hpath) as (Hf1 & Ht1 & _).
  pose proof (os_CreateTemp_inv _ _ _ _ _ _ Hv) as Hw2.
  assert (Hrun : DownloadComposite D E dl outputFile v quality mimetype w
                 = (inl e, snd (os_Remove E videoFile w2))).
  { unfold DownloadComposite. rewrite Hsel.
    unfold bind at 1. rewrite Hpath.
    unfold bind at 1. rewrite Hv.
    unfold defer at 1. unfold bind at 1. unfold os_CreateTemp at 1. rewrite Ha.
    reflexivity. }
  rewrite Hrun. cbn [fst snd].
  split; [reflexivity|]. split; [|split; [|split]].
  - rewrite os_Remove_trace. subst w2. exact Ht1.
  - intros p Hp. rewrite os_Remove_other by exact Hp.
    subst w2. cbn [files set_files]. rewrite lookup_insert_ne by auto. now rewrite Hf1.
  - intros Hok. apply os_Remove_ok, Hok.
  - intros Hrefused. destruct (removeFault E w2 videoFile) as [e'|] eqn:Hf; [|congruence].
    rewrite (os_Remove_refused E _ _ e' Hf). subst w2. cbn [files set_files].
    apply lookup_insert_eq.
Qed.

Lemma DownloadComposite_audio_temp_fails_witness :
  let run := DownloadComposite Demo.deps Demo.envAudioTempFails Demo.dl0
                               "movie.mp4" Demo.video_split "hd1080" "" Demo.worldOld in
  let refused := DownloadComposite Demo.deps Demo.envAudioTempFailsRemoveRefused Demo.dl0
                                   "movie.mp4" Demo.video_split "hd1080" "" Demo.worldOld in
  (fst run = inl (PathError "open" ".")
   /\ trace (snd run) = trace Demo.worldOld
   /\ files (snd run) !! "Test Video.mp4" = files Demo.worldOld !! "Test Video.mp4"
   /\ files (snd run) !! "./youtube_1.m4v" = None)
  /\ (fst refused = inl (PathError "open" ".")
      /\ files (snd refused) !! "./youtube_1.m4v" = Some []).
Proof.
  intros run refused. split.
  - destruct (DownloadComposite_audio_temp_fails
                Demo.deps Demo.envAudioTempFails Demo.dl0
                "movie.mp4" Demo.video_split "hd1080" "" Demo.worldOld
                Demo.f137 Demo.f251 _ _ _ _ (PathError "open" ".")
                eq_refl eq_refl eq_refl eq_refl) as (Hr & Ht & Hf & Hv & _).
    split; [exact Hr|]. split; [exact Ht|]. split; [apply Hf; discriminate|].
    apply Hv. reflexivity.
  - destruct (DownloadComposite_audio_temp_fails
                Demo.deps Demo.envAudioTempFailsRemoveRefused Demo.dl0
                "movie.mp4" Demo.video_split "hd1080" "" Demo.worldOld
                Demo.f137 Demo.f251 _ _ _ _ (PathError "open" ".")
                eq_refl eq_refl eq_refl eq_refl) as (Hr & _ & _ & _ & Hv).
    split; [exact Hr|]. apply Hv. discriminate.
Defined.

(** X9. Without explicit name and without output directory, a composite
    download that succeeds has handed the muxer, as its output, the
    sanitized title with the extension picked for the MIME type of the
    video format (not of the audio format). *)
Theorem DownloadComposite_output_name :
  forall (D : Deps) (E : Env) (dl : Downloader) (v : Video)
         (quality mimetype : string) (w w' : World),
    OutputDir dl = "" ->
    DownloadComposite D E dl "" v quality mimetype w = (inr tt, w') ->
    exists (vf af : Format) (videoFile audioFile : string),
      getVideoAudioFormats D v quality mimetype = inr (vf, af)
      /\ trace w' = trace w ++
           [EvOpenStream (ID v) (ItagNo vf);
            EvOpenStream (ID v) (ItagNo af);
            EvExec ["ffmpeg"; "-y"; "-i"; videoFile; "-i"; audioFile;
                    "-c"; "copy"; "-shortest";
                    (SanitizeFilename D (Title v) ++ pickIdealFileExtension D (MimeType vf))%string;
                    "-loglevel"; "warning"] None].
Proof.
  intros D E dl v quality mimetype w w' Hdir Hrun.
  apply DownloadComposite_cases in Hrun as [[_ [e He]]|Hrun]; [discriminate|].
  destruct Hrun as (vf & af & destFile & w1 & videoFile & w2 & audioFile & w3
                    & Hsel & Hpath & _ & _ & Hsteps).
  unfold getOutputFile in Hpath. rewrite Hdir in Hpath. cbn in Hpath.
  injection Hpath as <- <-.
  exists vf, af, videoFile, audioFile. split; [exact Hsel|].
  destruct Hsteps as [[_ [e He]]|[[_ [e He]]|(res & Ht & Hr)]]; try discriminate.
  destruct res; [discriminate|]. exact Ht.
Qed.

Lemma DownloadComposite_output_name_witness :
  let run := DownloadComposite Demo.deps (Demo.env Demo.streamOk Demo.ffmpegOk) Demo.dl0
                               "" Demo.video_split "hd1080" "" Demo.world0 in
  exists (vf af : Format) (videoFile audioFile : string),
    getVideoAudioFormats Demo.deps Demo.video_split "hd1080" "" = inr (vf, af)
    /\ trace (snd run) = trace Demo.world0 ++
         [EvOpenStream "vid1" (ItagNo vf);
          EvOpenStream "vid1" (ItagNo af);
          EvExec ["ffmpeg"; "-y"; "-i"; videoFile; "-i"; audioFile;
                  "-c"; "copy"; "-shortest";
                  ("Test Video" ++ pickIdealFileExtension Demo.deps (MimeType vf))%string;
                  "-loglevel"; "warning"] None].
Proof.
  intros run.
  apply (DownloadComposite_output_name Demo.deps (Demo.env Demo.streamOk Demo.ffmpegOk) Demo.dl0
           Demo.video_split "hd1080" "" Demo.world0 (snd run)).
  - reflexivity.
  - vm_compute. reflexivity.
Defined.

(** ** The command: the probe and the dispatch *)

Lemma checkFFMPEG_eq (E : Env) (w : World) :
  Cmd.checkFFMPEG E w =
  let w1 := snd (exec_Run E ["ffmpeg"; "-version"] w) in
  match fst (runProc E w ["ffmpeg"; "-version"]) with
  | Some _ => (inl (Errorf "please check ffmpegCheck is installed correctly"),
               set_ffmpegCheck (Some (Errorf "please check ffmpegCheck is installed correctly")) w1)
  | None => match ffmpegCheck w with
            | Some e => (inl e, w1)
            | None => (inr tt, w1)
            end
  end.
Proof.
  unfold Cmd.checkFFMPEG, exec_Run.
  destruct (runProc E w ["ffmpeg"; "-version"]) as [[e|] written]; cbn.
  - reflexivity.
  - destruct (ffmpegCheck w); reflexivity.
Qed.

(** The value of [ffmpegCheck] after checkFFMPEG. *)
Lemma checkFFMPEG_ffmpegCheck (E : Env) (w : World) :
  ffmpegCheck (snd (Cmd.checkFFMPEG E w)) =
  match fst (runProc E w ["ffmpeg"; "-version"]) with
  | Some _ => Some (Errorf "please check ffmpegCheck is installed correctly")
  | None => ffmpegCheck w
  end.
Proof.
  rewrite checkFFMPEG_eq. cbv zeta. unfold exec_Run.
  destruct (runProc E w ["ffmpeg"; "-version"]) as [[e|] written]; cbn.
  - reflexivity.
  - destruct (ffmpegCheck w) eqn:Hc; cbn; now rewrite ?Hc.
Qed.

(** X10. A failure of checkFFMPEG sticks: checkFFMPEG returns nil only
    when the probe succeeds and [ffmpegCheck] was nil before; a call
    that fails leaves [ffmpegCheck] set; and in any later world, and any
    environment, in which [ffmpegCheck] still has that value,
    checkFFMPEG fails again, even when ffmpeg now answers the probe. *)
Theorem checkFFMPEG_failure_sticks :
  forall (E E' : Env) (w w2 : World),
    (fst (Cmd.checkFFMPEG E w) = inr tt
     <-> fst (runProc E w ["ffmpeg"; "-version"]) = None /\ ffmpegCheck w = None)
    /\ (fst (Cmd.checkFFMPEG E w) <> inr tt ->
        ffmpegCheck w2 = ffmpegCheck (snd (Cmd.checkFFMPEG E w)) ->
        fst (Cmd.checkFFMPEG E' w2) <> inr tt).
Proof.
  intros E E' w w2.
  assert (Hiff : forall (E0 : Env) (w0 : World),
             fst (Cmd.checkFFMPEG E0 w0) = inr tt
             <-> fst (runProc E0 w0 ["ffmpeg"; "-version"]) = None /\ ffmpegCheck w0 = None).
  { intros E0 w0. rewrite checkFFMPEG_eq. cbv zeta.
    destruct (fst (runProc E0 w0 ["ffmpeg"; "-version"])) as [e|].
    - cbn [fst]. split; [intros H; discriminate H|]. intros [H _]. discriminate H.
    - destruct (ffmpegCheck w0) as [e|]; cbn [fst].
      + split; [intros H; discriminate H|]. intros [_ H]. discriminate H.
      + tauto. }
  split; [apply Hiff|].
  intros Hfail Hsame Hok. apply Hiff in Hok as [_ Hnil].
  rewrite Hnil, checkFFMPEG_ffmpegCheck in Hsame. apply Hfail, Hiff.
  destruct (fst (runProc E w ["ffmpeg"; "-version"])); [discriminate Hsame|].
  auto.
Qed.

Lemma checkFFMPEG_failure_sticks_witness :
  let absent := Demo.env Demo.streamOk Demo.ffmpegAbsent in
  let installed := Demo.env Demo.streamOk Demo.ffmpegOk in
  let w2 := snd (Cmd.checkFFMPEG absent Demo.world0) in
  fst (runProc installed w2 ["ffmpeg"; "-version"]) = None
  /\ fst (Cmd.checkFFMPEG installed w2) <> inr tt.
Proof.
  intros absent installed w2. split; [reflexivity|].
  apply (proj2 (checkFFMPEG_failure_sticks absent installed Demo.world0 w2)).
  - discriminate.
  - reflexivity.
Defined.

(** X11. The download command starts a subprocess only on the composite
    path. With an itag given, or with a quality that does not begin
    with hd, it runs neither the probe nor the muxer, whatever the
    quality: all it does outside the process is to open at most one
    stream. *)
Theorem download_subprocess_only_for_hd :
  forall (D : Deps) (E : Env) (F : Cmd.Flags) (id : string) (w : World),
    Cmd.itagString F <> "" \/ String.prefix "hd" (Cmd.outputQuality F) = false ->
    let run := Cmd.download D E F id w in
    trace (snd run) = trace w
    \/ exists (videoID : string) (itag : Z),
         trace (snd run) = trace w ++ [EvOpenStream videoID itag].
Proof.
  intros D E F id w Hpath. cbv zeta. unfold Cmd.download.
  destruct (getVideoWithFormat D id) as [e|[video format]]; [now left|].
  destruct (Cmd.itagString F =? "")%string eqn:Hitag; cbn [negb].
  - destruct Hpath as [Hne|Hhd].
    { apply String.eqb_eq in Hitag. contradiction. }
    rewrite Hhd.
    destruct (Download D E (Cmd.downloader F) video format (Cmd.outputFile F) w)
      as [r w'] eqn:Hrun.
    apply Download_cases in Hrun as [(Ht & _)|(destFile & w1 & _ & Ht & _)]; cbn [snd].
    + now left.
    + right. eauto.
  - destruct (strconv_Atoi D (Cmd.itagString F)) as [itagNo|]; [|now left].
    destruct (DownloadByItag D E (Cmd.downloader F) (Cmd.outputFile F) video itagNo w)
      as [r w'] eqn:Hrun.
    apply DownloadByItag_cases in Hrun
      as [(Ht & _)|(format' & destFile & w1 & _ & _ & Ht & _)]; cbn [snd].
    + now left.
    + right. eauto.
Qed.

Lemma download_subprocess_only_for_hd_witness :
  let run := Cmd.download Demo.deps (Demo.env Demo.streamOk Demo.ffmpegAbsent) Demo.flagsItag
                          "vid1" Demo.world0 in
  String.prefix "hd" (Cmd.outputQuality Demo.flagsItag) = true
  /\ (trace (snd run) = trace Demo.world0
      \/ exists (videoID : string) (itag : Z),
           trace (snd run) = trace Demo.world0 ++ [EvOpenStream videoID itag]).
Proof.
  intros run. split; [reflexivity|].
  apply (download_subprocess_only_for_hd Demo.deps (Demo.env Demo.streamOk Demo.ffmpegAbsent)
           Demo.flagsItag "vid1" Demo.world0).
  left. discriminate.
Defined.

(** ** Directories *)

(** X13. Download and DownloadByItag never remove a directory or change
    its permission bits after the path is resolved: the directories
    when the call returns, with or without error, are those that
    getOutputFile left, so an output directory that was created stays
    when the download fails. *)
Theorem Download_keeps_directories :
  forall (D : Deps) (E : Env) (dl : Downloader) (v : Video) (format : Format)
         (outputFile : string) (w : World) (r1 : error + string) (w1 : World),
    getOutputFile D E dl v format outputFile w = (r1, w1) ->
    dirs (snd (Download D E dl v format outputFile w)) = dirs w1
    /\ (forall itag, getFormatByItag v itag = inr format ->
          dirs (snd (DownloadByItag D E dl outputFile v itag w)) = dirs w1).
Proof.
  intros D E dl v format outputFile w r1 w1 Hpath.
  assert (Hworker : forall out w2, dirs w2 = dirs w1 ->
            dirs (snd (videoDLWorker E dl out v format w2)) = dirs w1).
  { intros out w2 Hw2.
    destruct (videoDLWorker E dl out v format w2) as [r w3] eqn:Hrun.
    apply videoDLWorker_frame in Hrun as (_ & Hd & _). cbn [snd]. congruence. }
  split.
  - unfold Download, bind, defer, file_Close, ret. rewrite Hpath.
    destruct r1 as [e|destFile]; [reflexivity|].
    unfold os_Create. destruct (createFault E w1 destFile); [reflexivity|].
    match goal with
    | |- context [videoDLWorker E dl ?o v format ?w2] =>
        pose proof (Hworker o w2 eq_refl) as Hd;
        destruct (videoDLWorker E dl o v format w2) as [r w3]
    end.
    exact Hd.
  - intros itag Hitag.
    unfold DownloadByItag, bind, defer, file_Close, ret. rewrite Hitag, Hpath.
    destruct r1 as [e|destFile]; [reflexivity|].
    unfold os_Create. destruct (createFault E w1 destFile); [reflexivity|].
    match goal with
    | |- context [videoDLWorker E dl ?o v format ?w2] =>
        pose proof (Hworker o w2 eq_refl) as Hd;
        destruct (videoDLWorker E dl o v format w2) as [[e|[]] w3]
    end; exact Hd.
Qed.

Lemma Download_keeps_directories_witness :
  let run := Download Demo.deps (Demo.env Demo.streamRefused Demo.ffmpegOk) Demo.dlOut
                      Demo.video_split Demo.f18 "" Demo.world0 in
  fst run = inl (StreamError "cannot open the stream")
  /\ dirs (snd run) !! "out" = Some 0x1ED.
Proof.
  intros run. subst run. split; [reflexivity|].
  rewrite (proj1 (Download_keeps_directories
                    Demo.deps (Demo.env Demo.streamRefused Demo.ffmpegOk) Demo.dlOut
                    Demo.video_split Demo.f18 "" Demo.world0 _ _ eq_refl)).
  reflexivity.
Defined.
